(** * Pandoc filters of [md/pandoc.py]: a shallow embedding

    The script defines five panflute actions ([h1hr], [bq], [graphviz],
    [mermaid], [op]) and hands a list of them to [pf.run_filters].  An action
    receives one AST node and the document, and answers [None] (keep the
    node) or a replacement node.  Two of them talk to the operating system:
    they look for a cache file, create a directory, write a file and start
    an external program.

    The texts of the document tree are represented by [string], read as
    the bytes of their file-system encoding (UTF-8 on the hosts the script
    runs on), so that for them [x.encode(sys.getfilesystemencoding())] is
    the list of the characters' codes.  A [str] that the encoding cannot
    hold has no such bytes; line 36 on an arbitrary [str], with the
    [UnicodeEncodeError] it then raises, is [sha1_str]. *)

From Stdlib Require Import ZArith List String Ascii Lia.
From stdpp Require Import base decidable option list strings gmap.
Import ListNotations.

Local Open Scope string_scope.
Local Open Scope list_scope.

Set Warnings "-register-all".

(** ** hashlib.sha1 (FIPS 180-4), on 32-bit words held in [Z] *)

Module SHA1.
Local Open Scope Z_scope.

Definition mask32 : Z := 4294967295.

(** Addition modulo 2^32. *)
Definition add32 (x y : Z) : Z := Z.land (x + y) mask32.

(** Circular left shift of a 32-bit word. *)
Definition rotl (n x : Z) : Z :=
  Z.lor (Z.land (Z.shiftl x n) mask32) (Z.shiftr x (32 - n)).

Definition not32 (x : Z) : Z := Z.lxor x mask32.

Definition Ch (x y z : Z) : Z := Z.lxor (Z.land x y) (Z.land (not32 x) z).
Definition Parity (x y z : Z) : Z := Z.lxor (Z.lxor x y) z.
Definition Maj (x y z : Z) : Z :=
  Z.lxor (Z.lxor (Z.land x y) (Z.land x z)) (Z.land y z).

(** Round function and round constant of step [t], 0 <= t < 80. *)
Definition f (t : nat) : Z -> Z -> Z -> Z :=
  if (t <? 20)%nat then Ch
  else if (t <? 40)%nat then Parity
  else if (t <? 60)%nat then Maj
  else Parity.

Definition K (t : nat) : Z :=
  if (t <? 20)%nat then 0x5a827999
  else if (t <? 40)%nat then 0x6ed9eba1
  else if (t <? 60)%nat then 0x8f1bbcdc
  else 0xca62c1d6.

(** Padding: a 1 bit, zeros up to 56 modulo 64 bytes, then the bit length
    as a 64-bit big-endian integer. *)
Fixpoint be_bytes (n : nat) (x : Z) : list Z :=
  match n with
  | O => []
  | S n' => Z.land (Z.shiftr x (8 * Z.of_nat n')) 255 :: be_bytes n' x
  end.

Definition pad (msg : list Z) : list Z :=
  let len := Z.of_nat (length msg) in
  let zeros := Z.to_nat ((55 - len) mod 64) in
  msg ++ [128] ++ repeat 0 zeros ++ be_bytes 8 (8 * len).

(** Big-endian 32-bit words of a byte list (whose length is a multiple of
    four; a shorter tail is dropped). *)
Fixpoint words (fuel : nat) (bs : list Z) : list Z :=
  match fuel, bs with
  | S fuel', b0 :: b1 :: b2 :: b3 :: rest =>
      (Z.shiftl b0 24 + Z.shiftl b1 16 + Z.shiftl b2 8 + b3) :: words fuel' rest
  | _, _ => []
  end.

(** Message schedule.  [rev_w] holds W(t-1), W(t-2), ... with the newest
    word first. *)
Fixpoint schedule (n : nat) (rev_w : list Z) : list Z :=
  match n with
  | O => rev_w
  | S n' =>
      let w k := nth k rev_w 0 in
      let x := rotl 1 (Z.lxor (Z.lxor (Z.lxor (w 2%nat) (w 7%nat)) (w 13%nat)) (w 15%nat)) in
      schedule n' (x :: rev_w)
  end.

Record state := State { ha : Z; hb : Z; hc : Z; hd : Z; he : Z }.

Definition H0 : state :=
  State 0x67452301 0xefcdab89 0x98badcfe 0x10325476 0xc3d2e1f0.

Fixpoint rounds (t : nat) (ws : list Z) (s : state) : state :=
  match ws with
  | [] => s
  | w :: ws' =>
      let T := add32 (add32 (add32 (add32 (rotl 5 (ha s)) (f t (hb s) (hc s) (hd s)))
                                   (he s)) (K t)) w in
      rounds (S t) ws' (State T (ha s) (rotl 30 (hb s)) (hc s) (hd s))
  end.

Definition block (h : state) (blk : list Z) : state :=
  let w := rev (schedule 64 (rev (words 16 blk))) in
  let s := rounds 0 w h in
  State (add32 (ha h) (ha s)) (add32 (hb h) (hb s)) (add32 (hc h) (hc s))
        (add32 (hd h) (hd s)) (add32 (he h) (he s)).

Fixpoint blocks (fuel : nat) (h : state) (bs : list Z) : state :=
  match fuel with
  | O => h
  | S fuel' =>
      match bs with
      | [] => h
      | _ => blocks fuel' (block h (firstn 64 bs)) (skipn 64 bs)
      end
  end.

Definition digest (msg : list Z) : state :=
  let p := pad msg in
  blocks (length p) H0 p.

Definition hex_digit (d : Z) : ascii :=
  if d <? 10 then ascii_of_nat (Z.to_nat (48 + d))
  else ascii_of_nat (Z.to_nat (87 + d)).

Fixpoint hex_of (digits : nat) (x : Z) : string :=
  match digits with
  | O => EmptyString
  | S d => String (hex_digit (Z.land (Z.shiftr x (4 * Z.of_nat d)) 15)) (hex_of d x)
  end.

Definition hexdigest (msg : list Z) : string :=
  let s := digest msg in
  hex_of 8 (ha s) ++ hex_of 8 (hb s) ++ hex_of 8 (hc s) ++ hex_of 8 (hd s)
    ++ hex_of 8 (he s).
End SHA1.

(** [x.encode(sys.getfilesystemencoding())] for a text given by the bytes
    of its encoding. *)
Definition encode (x : string) : list Z :=
  map (fun c => Z.of_nat (nat_of_ascii c)) (list_ascii_of_string x).

(** [sha1], lines 35-36, on such a text.  On a [str] that the encoding
    cannot hold the call raises instead; that is [sha1_str] below. *)
Definition sha1 (x : string) : string := SHA1.hexdigest (encode x).


(** ** panflute's document tree

    The node kinds are panflute's; the kinds that no action of the script
    looks at and that carry nothing the statements below need are gathered
    under [OtherInline], [OtherBlock] and [Other]. *)

(** An [OrderedDict] of string attributes: the pairs in insertion order. *)
Definition dict := list (string * string).

Fixpoint dict_lookup (k : string) (d : dict) : option string :=
  match d with
  | [] => None
  | (k', v) :: d' => if String.eqb k k' then Some v else dict_lookup k d'
  end.

(** [d.get(k, dflt)] *)
Definition dict_get (k dflt : string) (d : dict) : string :=
  match dict_lookup k d with
  | Some v => v
  | None => dflt
  end.

(** [d[k] = v]: an existing key keeps its place, a new key goes last. *)
Fixpoint dict_set (k v : string) (d : dict) : dict :=
  match d with
  | [] => [(k, v)]
  | (k', v') :: d' =>
      if String.eqb k k' then (k, v) :: d' else (k', v') :: dict_set k v d'
  end.

(** The [identifier], [classes] and [attributes] that panflute elements with
    an [Attr] carry; the constructors' defaults are [''], [[]] and [{}]. *)
Record Attr := mkAttr {
  identifier : string;
  classes : list string;
  attributes : dict
}.

Definition no_attr : Attr := mkAttr "" [] [].

Definition set_attributes (a : Attr) (d : dict) : Attr :=
  mkAttr (identifier a) (classes a) d.

Inductive Inline :=
| Str (text : string)
| Emph (content : list Inline)
| Strong (content : list Inline)
| Code (text : string) (attr : Attr)
| Space
| SoftBreak
| LineBreak
| RawInline (text : string) (format : string)
| Link (content : list Inline) (url title : string) (attr : Attr)
| Image (content : list Inline) (url title : string) (attr : Attr)
| Span (content : list Inline) (attr : Attr)
| OtherInline (tag : string).         (* Math, Cite, Note, ... *)

Inductive Block :=
| Plain (content : list Inline)
| Para (content : list Inline)
| CodeBlock (text : string) (attr : Attr)
| RawBlock (text : string) (format : string)
| BlockQuote (content : list Block)
| BulletList (items : list (list Block))
| Header (content : list Inline) (level : Z) (attr : Attr)
| HorizontalRule
| Div (content : list Block) (attr : Attr)
| OtherBlock (tag : string).          (* Table, OrderedList, ... *)

Record Doc := mkDoc {
  doc_content : list Block;
  format : string
}.

(** What the host passes to an action: any node of the tree, the root
    included. *)
Inductive Element :=
| Blk (b : Block)
| Inl (i : Inline)
| Root (d : Doc)
| Other (tag : string).               (* table cells, list items, metadata *)

(** [isinstance(elem, pf.Header)] and the like. *)
Definition is_Header (e : Element) : bool :=
  match e with Blk (Header _ _ _) => true | _ => false end.
Definition is_Div (e : Element) : bool :=
  match e with Blk (Div _ _) => true | _ => false end.
Definition is_CodeBlock (e : Element) : bool :=
  match e with Blk (CodeBlock _ _) => true | _ => false end.
Definition is_Code (e : Element) : bool :=
  match e with Inl (Code _ _) => true | _ => false end.

(** The double quote character, for the HTML that [op] writes, and the line
    feed that ends the messages on standard error. *)
Definition dquote : string := String (ascii_of_nat 34) EmptyString.
Definition nl : string := String (ascii_of_nat 10) EmptyString.

(** ** The actions that do not leave the tree *)

(** [h1hr], lines 9-20.  The assignment updates the node in place and the
    node itself is returned; the result below is that node after the
    assignment. *)
Definition h1hr (elem : Element) (doc : Doc) : option Element :=
  match elem with
  | Blk (Header content level attr) =>
      if negb (level =? 1)%Z then None
      else
        let attributes' :=
          dict_set "style" "border-bottom:1px solid #cccccc" (attributes attr) in
        Some (Blk (Header content level (set_attributes attr attributes')))
  | _ => None
  end.

(** [bq], lines 22-33.  Falling off the end of the function returns
    [None]. *)
Definition bq (elem : Element) (doc : Doc) : option Element :=
  match elem with
  | Blk (Div content attr) =>
      if bool_decide (classes attr = ["bq"]) then
        Some (Blk (BlockQuote content))
      else if bool_decide ("std" ∈ classes attr) then
        Some (Blk (Div [BlockQuote content] (mkAttr "" (classes attr) [])))
      else None
  | _ => None
  end.

(** [op], lines 85-87.  [pf.RawInline]'s format defaults to ['html']. *)
Definition op (elem : Element) (doc : Doc) : option Element :=
  match elem with
  | Inl (Code text attr) =>
      if bool_decide ("op" ∈ classes attr) then
        Some (Inl (RawInline
                     ("<code><span class=" ++ dquote ++ "op" ++ dquote ++ ">"
                        ++ text ++ "</span></code>")
                     "html"))
      else None
  | _ => None
  end.


(** ** The operating system as the script sees it *)

(** The exceptions that can reach the script.  All but [NameError] and
    [CalledProcessError] are subclasses of [OSError]. *)
Inductive Exn :=
| NameError (name : string)
| FileExistsError (path : string)
| FileNotFoundError (path : string)
| NotADirectoryError (path : string)
| IsADirectoryError (path : string)
| CalledProcessError (returncode : Z) (cmd : list string).

Definition is_OSError (e : Exn) : bool :=
  match e with
  | NameError _ | CalledProcessError _ _ => false
  | _ => true
  end.

(** Regular files with their contents, and directories. *)
Record FS := mkFS {
  files : gmap string string;
  dirs : gset string
}.

(** An executable on the search path: from its arguments and the file
    system to an exit status and the file system it leaves. *)
Definition Program : Type := list string -> FS -> Z * FS.

(** The calls that leave a trace outside the process. *)
Inductive Event :=
| EvMkdir (path : string)
| EvWrite (path text : string)
| EvExec (argv : list string)
| EvStderr (text : string).

Record World := mkWorld {
  fs : FS;
  programs : gmap string Program;
  log : list Event                  (* oldest first *)
}.

Inductive Outcome (A : Type) :=
| Return (a : A)
| Raise (e : Exn).
Arguments Return {A} a.
Arguments Raise {A} e.

(** Computations that read and change the world and may raise. *)
Definition M (A : Type) : Type := World -> Outcome A * World.

Definition ret {A} (a : A) : M A := fun w => (Return a, w).

Definition raise {A} (e : Exn) : M A := fun w => (Raise e, w).

Definition bind {A B} (m : M A) (k : A -> M B) : M B :=
  fun w =>
    match m w with
    | (Return a, w') => k a w'
    | (Raise e, w') => (Raise e, w')
    end.

Notation "x <- m ;; k" := (bind m (fun x => k))
  (at level 100, m at next level, right associativity).
Notation "m ;; k" := (bind m (fun _ => k))
  (at level 100, right associativity).

(** [try: body except OSError: pass] *)
Definition try_except_OSError (body : M unit) : M unit :=
  fun w =>
    match body w with
    | (Raise e, w') => if is_OSError e then (Return tt, w') else (Raise e, w')
    | r => r
    end.

Definition emit (ev : Event) : M unit :=
  fun w => (Return tt, mkWorld (fs w) (programs w) (log w ++ [ev])).

Definition set_fs (f : FS) : M unit :=
  fun w => (Return tt, mkWorld f (programs w) (log w)).

(** [posixpath.dirname]: everything up to the last slash, without trailing
    slashes unless it consists of slashes only. *)
Fixpoint drop_to_slash (rev_p : list ascii) : list ascii :=
  match rev_p with
  | [] => []
  | c :: rest => if Ascii.eqb c "/" then rev_p else drop_to_slash rest
  end.

Fixpoint rstrip_slash (rev_p : list ascii) : list ascii :=
  match rev_p with
  | [] => []
  | c :: rest => if Ascii.eqb c "/" then rstrip_slash rest else rev_p
  end.

Definition dirname (p : string) : string :=
  let head := drop_to_slash (rev (list_ascii_of_string p)) in
  match rstrip_slash head with
  | [] => string_of_list_ascii (rev head)
  | stripped => string_of_list_ascii (rev stripped)
  end.


(** Whether the directory a new entry [p] goes into is there.  The empty
    name is the current directory. *)
Definition parent_ok (p : string) (f : FS) : bool :=
  let d := dirname p in
  bool_decide (d = "") || bool_decide (d ∈ dirs f).

(** Whether the way to [p] leads through a regular file: going up from [p],
    the first name that exists (as a file, a directory, or the current
    directory) is a regular file.  The operating system then answers
    [ENOTDIR] rather than [ENOENT].  A path of n characters has at most n
    names above it. *)
Fixpoint under_file_fuel (fuel : nat) (p : string) (f : FS) : bool :=
  match fuel with
  | O => false
  | S fuel' =>
      let d := dirname p in
      if bool_decide (d = "") then false
      else if bool_decide (is_Some (files f !! d)) then true
      else if bool_decide (d ∈ dirs f) || bool_decide (d = p) then false
      else under_file_fuel fuel' d f
  end.

Definition under_file (p : string) (f : FS) : bool :=
  under_file_fuel (String.length p) p f.

(** [os.path.isfile(p)] *)
Definition isfile (p : string) : M bool :=
  fun w => (Return (bool_decide (is_Some (files (fs w) !! p))), w).

(** [os.mkdir(p)] *)
Definition mkdir (p : string) : M unit :=
  emit (EvMkdir p) ;;
  fun w =>
    let f := fs w in
    if bool_decide (is_Some (files f !! p)) || bool_decide (p ∈ dirs f) then
      raise (FileExistsError p) w
    else if under_file p f then raise (NotADirectoryError p) w
    else if negb (parent_ok p f) then raise (FileNotFoundError p) w
    else set_fs (mkFS (files f) ({[p]} ∪ dirs f)) w.

(** [with open(p, 'w') as f: f.write(text)] *)
Definition write_file (p text : string) : M unit :=
  emit (EvWrite p text) ;;
  fun w =>
    let f := fs w in
    if bool_decide (p ∈ dirs f) then raise (IsADirectoryError p) w
    else if under_file p f then raise (NotADirectoryError p) w
    else if negb (parent_ok p f) then raise (FileNotFoundError p) w
    else set_fs (mkFS (<[p := text]> (files f)) (dirs f)) w.

(** [sys.stderr.write(text)] *)
Definition stderr_write (text : string) : M unit := emit (EvStderr text).

(** [subprocess.check_call(argv, stderr=DEVNULL, stdout=DEVNULL)] *)
Definition check_call (argv : list string) : M unit :=
  emit (EvExec argv) ;;
  fun w =>
    match programs w !! hd "" argv with
    | None => raise (FileNotFoundError (hd "" argv)) w
    | Some run =>
        let '(status, f') := run argv (fs w) in
        (set_fs f' ;;
         if (status =? 0)%Z then ret tt else raise (CalledProcessError status argv)) w
    end.

(** ** The actions that reach the operating system *)

(** The interface of the [pygraphviz] library that [graphviz] uses. *)
Record AGraph := mkAGraph {
  layout : string -> M unit;          (* G.layout(prog=...) *)
  draw : string -> M unit             (* G.draw(path) *)
}.

Record pygraphviz_module := mkPygraphviz {
  new_AGraph : string -> M AGraph     (* pygraphviz.AGraph(string=...) *)
}.

(** The global name [pygraphviz].  Its import (line 6) is commented out, so
    no such name is bound in the module and reading it raises. *)
Definition pygraphviz : M pygraphviz_module := raise (NameError "pygraphviz").

Section Script.
(** The path the script was started under. *)
Variable __file__ : string.

(** Line 38. *)
Definition MD_DIR : string := dirname __file__.

(** [graphviz], lines 40-59. *)
Definition graphviz (elem : Element) (doc : Doc) : M (option Element) :=
  match elem with
  | Blk (CodeBlock code attr) =>
      if bool_decide ("graphviz" ∈ classes attr) then
        lib <- pygraphviz ;;
        G <- new_AGraph lib code ;;
        layout G "dot" ;;
        let filename := sha1 code in
        let filetype := dict_get (format doc) "png" [("html", "png"); ("latex", "pdf")] in
        let caption := dict_get "caption" "" (attributes attr) in
        let imagedir := (MD_DIR ++ "/graphviz-images")%string in
        let src := (imagedir ++ "/" ++ filename ++ "." ++ filetype)%string in
        cached <- isfile src ;;
        (if negb cached then
           try_except_OSError
             (mkdir imagedir ;;
              stderr_write ("Created directory " ++ imagedir ++ nl)) ;;
           draw G src ;;
           stderr_write ("Created image " ++ src ++ nl)
         else ret tt) ;;
        ret (Some (Blk (Para [Image [Str caption] src caption no_attr])))
      else ret None
  | _ => ret None
  end.

(** [mermaid], lines 61-83. *)
Definition mermaid (elem : Element) (doc : Doc) : M (option Element) :=
  match elem with
  | Blk (CodeBlock code attr) =>
      if bool_decide ("mermaid" ∈ classes attr) then
        let caption := dict_get "caption" "" (attributes attr) in
        let filename := sha1 code in
        let mermaid_dir := (MD_DIR ++ "/mermaid-images")%string in
        let src_file := (mermaid_dir ++ "/" ++ filename ++ ".mmd")%string in
        let dst_img := (mermaid_dir ++ "/" ++ filename ++ ".svg")%string in
        cached <- isfile src_file ;;
        (if negb cached then
           try_except_OSError
             (mkdir mermaid_dir ;;
              stderr_write ("Created directory " ++ mermaid_dir ++ nl)) ;;
           write_file src_file code ;;
           check_call ["mmdc"; "-i"; src_file; "-o"; dst_img]
         else ret tt) ;;
        ret (Some (Blk (Para [Image [Str caption] dst_img caption no_attr])))
      else ret None
  | _ => ret None
  end.
End Script.

(** ** Registration, lines 89-91 *)

Inductive Filter := F_h1hr | F_bq | F_graphviz | F_mermaid | F_op.

(** An action as [pf.run_filters] calls it. *)
Definition Action : Type := Element -> Doc -> M (option Element).

Definition pure_action (f : Element -> Doc -> option Element) : Action :=
  fun elem doc => ret (f elem doc).

Definition action (__file__ : string) (f : Filter) : Action :=
  match f with
  | F_h1hr => pure_action h1hr
  | F_bq => pure_action bq
  | F_graphviz => graphviz __file__
  | F_mermaid => mermaid __file__
  | F_op => pure_action op
  end.

(** Every action the script defines. *)
Definition defined_filters : list Filter :=
  [F_h1hr; F_bq; F_graphviz; F_mermaid; F_op].

(** The list passed to [pf.run_filters] on line 91. *)
Definition registered_filters : list Filter := [F_h1hr; F_bq; F_mermaid; F_op].

(** ** A concrete run, used to exercise the statements below *)

Module Demo.
Definition script : string := "md/pandoc.py".

Definition doc : Doc := mkDoc [] "html".

Definition code : string := "graph TD; A-->B;".

Definition diagram : Element :=
  Blk (CodeBlock code (mkAttr "fig1" ["mermaid"] [("caption", "Flow")])).

Definition src_file : string :=
  "md/mermaid-images/9960dae465839a355910be588d69928be103cd35.mmd".
Definition dst_img : string :=
  "md/mermaid-images/9960dae465839a355910be588d69928be103cd35.svg".

Definition argv : list string := ["mmdc"; "-i"; src_file; "-o"; dst_img].

Definition image : Element :=
  Blk (Para [Image [Str "Flow"] dst_img "Flow" no_attr]).

(** A renderer that writes the picture named after [-o], and one that
    gives up with status 1. *)
Definition mmdc_ok : Program :=
  fun argv f => (0%Z, mkFS (<[nth 4 argv "" := "<svg/>"]> (files f)) (dirs f)).
Definition mmdc_broken : Program := fun _ f => (1%Z, f).

(** A checkout without a cache directory. *)
Definition fresh_fs : FS := mkFS {[ script := "#!/usr/bin/env python" ]} {[ "md" ]}.

Definition fresh (progs : gmap string Program) : World := mkWorld fresh_fs progs [].

(** The same checkout once the cache directory is there. *)
Definition with_dir (progs : gmap string Program) : World :=
  mkWorld (mkFS (files fresh_fs) {[ "md"; "md/mermaid-images" ]}) progs [].

(** A picture left in the cache by hand, without its [.mmd] file. *)
Definition only_image (progs : gmap string Program) : World :=
  mkWorld (mkFS (<[dst_img := "<svg/>"]> (files fresh_fs))
                {[ "md"; "md/mermaid-images" ]}) progs [].

(** The script inside an archive: the name above it is a regular file. *)
Definition in_archive (progs : gmap string Program) : World :=
  mkWorld (mkFS {[ "site.zip" := "PK" ]} ∅) progs [].
End Demo.

(** ** Names for the pieces of [mermaid] and [op], used in the statements *)

Definition op_open : string := "<code><span class=" ++ dquote ++ "op" ++ dquote ++ ">".
Definition op_close : string := "</span></code>".

Section MermaidPieces.
Variable __file__ : string.

Definition mermaid_dir : string := (MD_DIR __file__ ++ "/mermaid-images")%string.
Definition mermaid_src (code : string) : string :=
  (mermaid_dir ++ "/" ++ sha1 code ++ ".mmd")%string.
Definition mermaid_dst (code : string) : string :=
  (mermaid_dir ++ "/" ++ sha1 code ++ ".svg")%string.
Definition mermaid_argv (code : string) : list string :=
  ["mmdc"; "-i"; mermaid_src code; "-o"; mermaid_dst code].

(** Lines 71-75. *)
Definition make_cache_dir : M unit :=
  try_except_OSError
    (mkdir mermaid_dir ;;
     stderr_write ("Created directory " ++ mermaid_dir ++ nl)).

(** Lines 71-82, the body of the [if]. *)
Definition regenerate (code : string) : M unit :=
  make_cache_dir ;;
  write_file (mermaid_src code) code ;;
  check_call (mermaid_argv code).

(** Line 83. *)
Definition mermaid_para (code : string) (attr : Attr) : Element :=
  let caption := dict_get "caption" "" (attributes attr) in
  Blk (Para [Image [Str caption] (mermaid_dst code) caption no_attr]).
End MermaidPieces.

(** Two worlds with the same files, directories and programs; their logs
    may differ. *)
Definition same_env (w1 w2 : World) : Prop :=
  fs w1 = fs w2 /\ programs w1 = programs w2.

(** A computation that leaves the installed programs alone. *)
Definition keeps_programs {A} (m : M A) : Prop :=
  forall w, programs (snd (m w)) = programs w.

(** A computation that adds at least [n] events to the log and removes
    none. *)
Definition grows {A} (n : nat) (m : M A) : Prop :=
  forall w, length (log w) + n <= length (log (snd (m w))).

(** A computation whose outcome and whose effect on files, directories and
    programs do not depend on the log. *)
Definition respects {A} (m : M A) : Prop :=
  forall w1 w2, same_env w1 w2 ->
    fst (m w1) = fst (m w2) /\ same_env (snd (m w1)) (snd (m w2)).

(** ** Line 36 on a [str] that the encoding may not hold

    A Python [str] is a sequence of code points, 0 to 0x10FFFF, surrogates
    included.  [x.encode(enc)] is strict: it raises [UnicodeEncodeError] at
    the first code point the encoding cannot hold.  [sha1_str] is line 36 on
    such a value, for the encodings [sys.getfilesystemencoding()] gives on
    the hosts of the script; [sha1] above is the same function on the bytes
    of a text that was encoded, which is what the [string]s of the document
    tree hold. *)

Inductive Codec := UTF_8 | ASCII | Latin_1.

Inductive Encoded (A : Type) :=
| Ok (a : A)
| UnicodeEncodeError (start : nat).
Arguments Ok {A} a.
Arguments UnicodeEncodeError {A} start.

(** The bytes of one code point, if the encoding has it. *)
Definition encode_char (enc : Codec) (cp : Z) : option (list Z) :=
  match enc with
  | ASCII => if (cp <? 128)%Z then Some [cp] else None
  | Latin_1 => if (cp <? 256)%Z then Some [cp] else None
  | UTF_8 =>
      if (cp <? 0x80)%Z then Some [cp]
      else if (cp <? 0x800)%Z then
        Some [Z.lor 0xC0 (Z.shiftr cp 6); Z.lor 0x80 (Z.land cp 0x3F)]
      else if (0xD800 <=? cp)%Z && (cp <=? 0xDFFF)%Z then None
      else if (cp <? 0x10000)%Z then
        Some [Z.lor 0xE0 (Z.shiftr cp 12);
              Z.lor 0x80 (Z.land (Z.shiftr cp 6) 0x3F);
              Z.lor 0x80 (Z.land cp 0x3F)]
      else
        Some [Z.lor 0xF0 (Z.shiftr cp 18);
              Z.lor 0x80 (Z.land (Z.shiftr cp 12) 0x3F);
              Z.lor 0x80 (Z.land (Z.shiftr cp 6) 0x3F);
              Z.lor 0x80 (Z.land cp 0x3F)]
  end.

Definition encodable (enc : Codec) (cp : Z) : bool :=
  match encode_char enc cp with Some _ => true | None => false end.

(** [x.encode(enc)], with [i] the index of the head of [x]. *)
Fixpoint encode_from (enc : Codec) (i : nat) (x : list Z) : Encoded (list Z) :=
  match x with
  | [] => Ok []
  | cp :: rest =>
      match encode_char enc cp with
      | None => UnicodeEncodeError i
      | Some bytes =>
          match encode_from enc (S i) rest with
          | Ok more => Ok (bytes ++ more)
          | UnicodeEncodeError j => UnicodeEncodeError j
          end
      end
  end.

Definition encode_str (enc : Codec) (x : list Z) : Encoded (list Z) :=
  encode_from enc 0 x.

(** Line 36 with [sys.getfilesystemencoding()] being [enc]. *)
Definition sha1_str (enc : Codec) (x : list Z) : Encoded string :=
  match encode_str enc x with
  | Ok bytes => Ok (SHA1.hexdigest bytes)
  | UnicodeEncodeError i => UnicodeEncodeError i
  end.

(** The code points of a text of the tree that is plain ASCII. *)
Definition code_points (s : string) : list Z := encode s.

(** ** Notions for the statements about paths, traces and the pipeline *)

(** Every character of [s] passes the test [p]. *)
Fixpoint all_chars (p : ascii -> bool) (s : string) : bool :=
  match s with
  | EmptyString => true
  | String c s' => p c && all_chars p s'
  end.

(** The digits 0-9 and the letters a-f. *)
Definition is_hex (c : ascii) : bool :=
  let n := nat_of_ascii c in
  ((48 <=? n)%nat && (n <=? 57)%nat) || ((97 <=? n)%nat && (n <=? 102)%nat).

Definition not_slash (c : ascii) : bool := negb (Ascii.eqb c "/").

(** Whether a computation came back without raising. *)
Definition returned {A} (r : Outcome A * World) : bool :=
  match fst r with Return _ => true | Raise _ => false end.

(** * Properties *)

(** Membership in a list that is written out. *)
Ltac in_list := simpl; now repeat constructor.
Ltac not_in_list :=
  simpl; rewrite ?not_elem_of_cons; repeat split; try discriminate;
  apply not_elem_of_nil.

(** ** Test vectors for [sha1] and [dirname] *)

Example sha1_abc : sha1 "abc" = "a9993e364706816aba3e25717850c26c9cd0d89d".
Proof. vm_compute. reflexivity. Qed.

Example sha1_empty : sha1 "" = "da39a3ee5e6b4b0d3255bfef95601890afd80709".
Proof. vm_compute. reflexivity. Qed.

Example sha1_two_blocks :
  sha1 "abcdbcdecdefdefgefghfghighijhijkijkljklmklmnlmnomnopnopq"
  = "84983e441c3bd26ebaae4aa1f95129e5e54670f1".
Proof. vm_compute. reflexivity. Qed.

Example demo_src_file : mermaid_src Demo.script Demo.code = Demo.src_file.
Proof. vm_compute. reflexivity. Qed.

Example demo_dst_img : mermaid_dst Demo.script Demo.code = Demo.dst_img.
Proof. vm_compute. reflexivity. Qed.

Example demo_image :
  mermaid_para Demo.script Demo.code (mkAttr "fig1" ["mermaid"] [("caption", "Flow")])
  = Demo.image.
Proof. vm_compute. reflexivity. Qed.

Example dirname_ex1 : dirname "md/pandoc.py" = "md". Proof. reflexivity. Qed.
Example dirname_ex2 : dirname "pandoc.py" = "". Proof. reflexivity. Qed.
Example dirname_ex3 : dirname "/pandoc.py" = "/". Proof. reflexivity. Qed.
Example dirname_ex4 : dirname "/repo//md/pandoc.py" = "/repo//md". Proof. reflexivity. Qed.

(** ** Dictionaries and strings *)

Lemma dict_lookup_set_eq k v d : dict_lookup k (dict_set k v d) = Some v.
Proof.
  induction d as [|[k' v'] d IH]; simpl.
  - now rewrite String.eqb_refl.
  - destruct (String.eqb k k') eqn:E; simpl; rewrite ?String.eqb_refl, ?E; auto.
Qed.

Lemma dict_lookup_set_ne k k' v d :
  k <> k' -> dict_lookup k' (dict_set k v d) = dict_lookup k' d.
Proof.
  intros Hne. induction d as [|[k0 v0] d IH]; simpl.
  - destruct (String.eqb k' k) eqn:E; auto.
    apply String.eqb_eq in E. congruence.
  - destruct (String.eqb k k0) eqn:E; simpl.
    + apply String.eqb_eq in E. subst k0.
      destruct (String.eqb k' k) eqn:E'; auto.
      apply String.eqb_eq in E'. congruence.
    + now rewrite IH.
Qed.

Lemma length_append (s t : string) :
  String.length (s ++ t) = String.length s + String.length t.
Proof. induction s as [|c s IH]; simpl; auto. Qed.

Lemma append_assoc (s t u : string) : ((s ++ t) ++ u = s ++ t ++ u)%string.
Proof.
  induction s as [|c s IH]; [reflexivity|].
  change (String c ((s ++ t) ++ u) = String c (s ++ t ++ u))%string.
  now rewrite IH.
Qed.

Lemma substring_skip p n x :
  substring (String.length p) n (p ++ x) = substring 0 n x.
Proof. induction p as [|c p IH]; simpl; auto. Qed.

Lemma substring_prefix t s : substring 0 (String.length t) (t ++ s) = t.
Proof.
  induction t as [|c t IH]; simpl.
  - now destruct s.
  - now rewrite IH.
Qed.

(** ** [h1hr] *)

(** C5: a level-1 Header comes back with its 'style' attribute set to
    'border-bottom:1px solid #cccccc' (the rest of the node as it was); a
    Header of another level, and a node that is no Header, give [None]. *)
Theorem h1hr_spec (elem : Element) (doc : Doc) :
  (forall content attr,
      elem = Blk (Header content 1 attr) ->
      exists attr',
        h1hr elem doc = Some (Blk (Header content 1 attr'))
        /\ dict_lookup "style" (attributes attr') = Some "border-bottom:1px solid #cccccc"
        /\ (forall k, k <> "style" ->
                      dict_lookup k (attributes attr') = dict_lookup k (attributes attr))
        /\ identifier attr' = identifier attr
        /\ classes attr' = classes attr)
  /\ (forall content level attr,
         elem = Blk (Header content level attr) -> level <> 1%Z -> h1hr elem doc = None)
  /\ (is_Header elem = false -> h1hr elem doc = None).
Proof.
  repeat split.
  - intros content attr ->. eexists. split; [reflexivity|]. cbn.
    split; [apply dict_lookup_set_eq|].
    split; [|split; reflexivity].
    intros k Hk. apply dict_lookup_set_ne. congruence.
  - intros content level attr -> Hl. cbn.
    destruct (Z.eqb_spec level 1); [contradiction|reflexivity].
  - destruct elem as [[]| | |]; cbn; try reflexivity. discriminate.
Qed.

Lemma h1hr_spec_witness :
  h1hr (Blk (Header [Str "Motivation"] 2 no_attr)) Demo.doc = None
  /\ h1hr Demo.diagram Demo.doc = None
  /\ exists attr',
      h1hr (Blk (Header [Str "Title"] 1 (mkAttr "t" ["x"] [("style", "color:red")]))) Demo.doc
      = Some (Blk (Header [Str "Title"] 1 attr'))
      /\ dict_lookup "style" (attributes attr') = Some "border-bottom:1px solid #cccccc".
Proof.
  split; [|split].
  - apply (proj1 (proj2 (h1hr_spec _ Demo.doc)) [Str "Motivation"] 2%Z no_attr);
      [reflexivity | lia].
  - apply (proj2 (proj2 (h1hr_spec Demo.diagram Demo.doc))). reflexivity.
  - destruct (proj1 (h1hr_spec _ Demo.doc) [Str "Title"]
                (mkAttr "t" ["x"] [("style", "color:red")]) eq_refl)
      as [attr' [H1 [H2 _]]].
    exists attr'. split; assumption.
Defined.

(** ** [bq] *)

Lemma bq_not_Div elem doc : is_Div elem = false -> bq elem doc = None.
Proof. destruct elem as [[]| | |]; cbn; try reflexivity. discriminate. Qed.

Lemma bq_Div_std content attr doc :
  "std" ∈ classes attr ->
  bq (Blk (Div content attr)) doc
  = Some (Blk (Div [BlockQuote content] (mkAttr "" (classes attr) []))).
Proof.
  intros Hstd. cbn. case_bool_decide as Hbq.
  - rewrite Hbq in Hstd. now apply list_elem_of_singleton in Hstd.
  - now rewrite bool_decide_eq_true_2.
Qed.

(** C4: a Div whose class list is ['bq'] becomes a BlockQuote of its
    content; a Div with 'std' among its classes becomes a Div, with the same
    class list, around a BlockQuote of its content; any other node gives
    [None]. *)
Theorem bq_spec (elem : Element) (doc : Doc) :
  (forall content attr,
      elem = Blk (Div content attr) -> classes attr = ["bq"] ->
      bq elem doc = Some (Blk (BlockQuote content)))
  /\ (forall content attr,
         elem = Blk (Div content attr) -> "std" ∈ classes attr ->
         exists attr',
           bq elem doc = Some (Blk (Div [BlockQuote content] attr'))
           /\ classes attr' = classes attr)
  /\ ((forall content attr,
          elem = Blk (Div content attr) ->
          classes attr <> ["bq"] /\ "std" ∉ classes attr) ->
      bq elem doc = None).
Proof.
  repeat split.
  - intros content attr -> Hbq. cbn. now rewrite bool_decide_eq_true_2.
  - intros content attr -> Hstd. eexists. split; [now apply bq_Div_std|reflexivity].
  - intros Hother. destruct (is_Div elem) eqn:HD; [|now apply bq_not_Div].
    destruct elem as [[]| | |]; try discriminate.
    destruct (Hother _ _ eq_refl) as [Hbq Hstd]. cbn.
    now rewrite !bool_decide_eq_false_2.
Qed.

Lemma bq_spec_witness :
  bq (Blk (Div [Para [Str "quoted"]] (mkAttr "" ["bq"] []))) Demo.doc
  = Some (Blk (BlockQuote [Para [Str "quoted"]]))
  /\ (exists attr',
         bq (Blk (Div [Para [Str "wording"]] (mkAttr "" ["std"; "ins"] []))) Demo.doc
         = Some (Blk (Div [BlockQuote [Para [Str "wording"]]] attr'))
         /\ classes attr' = ["std"; "ins"])
  /\ bq (Blk (Div [] (mkAttr "" ["note"] []))) Demo.doc = None
  /\ bq (Blk (Para [Str "text"])) Demo.doc = None.
Proof.
  split; [|split; [|split]].
  - apply (proj1 (bq_spec _ Demo.doc) [Para [Str "quoted"]] (mkAttr "" ["bq"] []));
      reflexivity.
  - apply (proj1 (proj2 (bq_spec _ Demo.doc)) [Para [Str "wording"]]
             (mkAttr "" ["std"; "ins"] [])); [reflexivity|].
    in_list.
  - apply (proj2 (proj2 (bq_spec _ Demo.doc))).
    intros content attr [= <- <-]. split; [discriminate|not_in_list].
  - apply (proj2 (proj2 (bq_spec _ Demo.doc))). intros content attr [=].
Defined.

(** C9: a Div that has 'bq' next to other classes, and not 'std', gives
    [None]: only the class list ['bq'] itself makes a BlockQuote. *)
Theorem bq_with_other_classes (content : list Block) (attr : Attr) (doc : Doc) :
  "bq" ∈ classes attr ->
  classes attr <> ["bq"] ->
  "std" ∉ classes attr ->
  bq (Blk (Div content attr)) doc = None.
Proof.
  intros _ Hne Hstd. cbn. now rewrite !bool_decide_eq_false_2.
Qed.

Lemma bq_with_other_classes_witness :
  bq (Blk (Div [Para [Str "quoted"]] (mkAttr "" ["bq"; "wide"] []))) Demo.doc = None.
Proof.
  apply bq_with_other_classes; [in_list | discriminate | not_in_list].
Defined.

(** C10: for a Div with 'std' among its classes the new Div has the old
    class list, the empty identifier and no attributes, whatever identifier
    and attributes the old one had. *)
Theorem bq_std_keeps_classes_only (content : list Block) (attr : Attr) (doc : Doc) :
  "std" ∈ classes attr ->
  exists content' attr',
    bq (Blk (Div content attr)) doc = Some (Blk (Div content' attr'))
    /\ classes attr' = classes attr
    /\ identifier attr' = ""
    /\ attributes attr' = [].
Proof.
  intros Hstd. do 2 eexists. split; [now apply bq_Div_std|]. now cbn.
Qed.

Lemma bq_std_keeps_classes_only_witness :
  exists content' attr',
    bq (Blk (Div [Para [Str "wording"]]
               (mkAttr "expr.add" ["std"] [("data-ref", "7.6.6")]))) Demo.doc
    = Some (Blk (Div content' attr'))
    /\ classes attr' = ["std"]
    /\ identifier attr' = ""
    /\ attributes attr' = [].
Proof.
  apply (bq_std_keeps_classes_only [Para [Str "wording"]]
           (mkAttr "expr.add" ["std"] [("data-ref", "7.6.6")]) Demo.doc).
  in_list.
Defined.

(** ** [op] *)

(** C6: inline Code with 'op' among its classes becomes a RawInline whose
    text is the opening markup, the element's text as it is, and the closing
    markup; any other node gives [None]. *)
Theorem op_spec (elem : Element) (doc : Doc) :
  (forall text attr,
      elem = Inl (Code text attr) -> "op" ∈ classes attr ->
      exists raw,
        op elem doc = Some (Inl (RawInline raw "html"))
        /\ raw = (op_open ++ text ++ op_close)%string
        /\ String.length raw = 23 + String.length text + 14
        /\ substring 23 (String.length text) raw = text)
  /\ ((forall text attr, elem = Inl (Code text attr) -> "op" ∉ classes attr) ->
      op elem doc = None).
Proof.
  split.
  - intros text attr -> Hop. eexists. split; [|split; [reflexivity|split]].
    + cbn. rewrite bool_decide_eq_true_2 by assumption. reflexivity.
    + rewrite !length_append. reflexivity.
    + change 23 with (String.length op_open).
      rewrite substring_skip. apply substring_prefix.
  - intros Hother. destruct elem as [|[| | |text attr| | | | | | | |]| |]; cbn; try reflexivity.
    rewrite bool_decide_eq_false_2; [reflexivity|]. now apply (Hother text attr).
Qed.

Lemma op_spec_witness :
  (exists raw,
      op (Inl (Code "a<b && c" (mkAttr "" ["op"] []))) Demo.doc
      = Some (Inl (RawInline raw "html"))
      /\ raw = (op_open ++ "a<b && c" ++ op_close)%string
      /\ String.length raw = 23 + 8 + 14
      /\ substring 23 8 raw = "a<b && c")
  /\ op (Inl (Code "x" (mkAttr "" ["cpp"] []))) Demo.doc = None.
Proof.
  split.
  - apply (proj1 (op_spec _ Demo.doc) "a<b && c" (mkAttr "" ["op"] []));
      [reflexivity | in_list].
  - apply (proj2 (op_spec _ Demo.doc)).
    intros text attr [= <- <-]. not_in_list.
Defined.

(** ** The monad *)

Lemma bind_Return {A B} (m : M A) (k : A -> M B) w a w' :
  m w = (Return a, w') -> bind m k w = k a w'.
Proof. unfold bind. now intros ->. Qed.

Lemma bind_Raise {A B} (m : M A) (k : A -> M B) w e w' :
  m w = (Raise e, w') -> bind m k w = (Raise e, w').
Proof. unfold bind. now intros ->. Qed.

Lemma bind_ret_inv {A B} (m : M A) (b r : B) w w' :
  (m ;; ret b) w = (Return r, w') -> r = b /\ exists a, m w = (Return a, w').
Proof.
  unfold bind, ret. destruct (m w) as [[a|e] w1]; intros [= <- <-]; eauto.
Qed.

Lemma respects_ret {A} (a : A) : respects (ret a).
Proof. intros w1 w2 H. now split. Qed.

Lemma respects_raise {A} e : respects (@raise A e).
Proof. intros w1 w2 H. now split. Qed.

Lemma respects_bind {A B} (m : M A) (k : A -> M B) :
  respects m -> (forall a, respects (k a)) -> respects (bind m k).
Proof.
  intros Hm Hk w1 w2 H. unfold bind.
  destruct (Hm w1 w2 H) as [Ho Hw].
  destruct (m w1) as [[a1|e1] w1'], (m w2) as [[a2|e2] w2']; simpl in *;
    try discriminate.
  - injection Ho as ->. now apply Hk.
  - injection Ho as ->. now split.
Qed.

Lemma respects_try (body : M unit) :
  respects body -> respects (try_except_OSError body).
Proof.
  intros Hb w1 w2 H. unfold try_except_OSError.
  destruct (Hb w1 w2 H) as [Ho Hw].
  destruct (body w1) as [[[]|e1] w1'], (body w2) as [[[]|e2] w2']; simpl in *;
    try discriminate; [now split|].
  injection Ho as ->. destruct (is_OSError e2); now split.
Qed.

Lemma respects_emit ev : respects (emit ev).
Proof. intros w1 w2 [Hf Hp]. now repeat split. Qed.

Lemma respects_set_fs f : respects (set_fs f).
Proof. intros w1 w2 [Hf Hp]. now repeat split. Qed.

Lemma respects_isfile p : respects (isfile p).
Proof. intros w1 w2 [Hf Hp]. unfold isfile; simpl. rewrite Hf. now repeat split. Qed.

Lemma respects_mkdir p : respects (mkdir p).
Proof.
  unfold mkdir. apply respects_bind; [apply respects_emit|].
  intros _ w1 w2 [Hf Hp]. rewrite Hf.
  destruct (_ || _); [apply respects_raise; now split|].
  destruct (under_file _ _); [apply respects_raise; now split|].
  destruct (negb _); [apply respects_raise | apply respects_set_fs]; now split.
Qed.

Lemma respects_write_file p text : respects (write_file p text).
Proof.
  unfold write_file. apply respects_bind; [apply respects_emit|].
  intros _ w1 w2 [Hf Hp]. rewrite Hf.
  case_bool_decide; [apply respects_raise; now split|].
  destruct (under_file _ _); [apply respects_raise; now split|].
  destruct (negb _); [apply respects_raise | apply respects_set_fs]; now split.
Qed.

Lemma respects_check_call argv : respects (check_call argv).
Proof.
  unfold check_call. apply respects_bind; [apply respects_emit|]. intros _.
  intros w1 w2 [Hf Hp]. rewrite Hf, Hp.
  destruct (programs w2 !! hd "" argv) as [run|]; [|now repeat split].
  destruct (run argv (fs w2)) as [status f'].
  apply respects_bind; [apply respects_set_fs| |now split].
  intros _. destruct (status =? 0)%Z; [apply respects_ret | apply respects_raise].
Qed.

(** ** [mermaid] and [graphviz] *)

Section MermaidFacts.
Variable __file__ : string.
Variables (code : string) (attr : Attr) (doc : Doc).
Hypothesis Hclass : "mermaid" ∈ classes attr.

Let block : Element := Blk (CodeBlock code attr).

Lemma mermaid_body :
  mermaid __file__ block doc
  = (cached <- isfile (mermaid_src __file__ code) ;;
     (if negb cached then regenerate __file__ code else ret tt) ;;
     ret (Some (mermaid_para __file__ code attr))).
Proof.
  unfold block. cbn [mermaid]. now rewrite bool_decide_eq_true_2.
Qed.

(** With the [.mmd] file in place nothing is done. *)
Lemma mermaid_cached w :
  is_Some (files (fs w) !! mermaid_src __file__ code) ->
  mermaid __file__ block doc w = (Return (Some (mermaid_para __file__ code attr)), w).
Proof.
  intros Hc. rewrite mermaid_body. unfold bind, isfile, ret.
  now rewrite bool_decide_eq_true_2.
Qed.

(** Without it the image is made again. *)
Lemma mermaid_uncached w :
  files (fs w) !! mermaid_src __file__ code = None ->
  mermaid __file__ block doc w
  = (regenerate __file__ code ;; ret (Some (mermaid_para __file__ code attr))) w.
Proof.
  intros Hc. rewrite mermaid_body. unfold bind at 1 2, isfile.
  rewrite bool_decide_eq_false_2; [reflexivity|].
  rewrite Hc. now intros [? ?].
Qed.

Lemma mermaid_returned w r w' :
  mermaid __file__ block doc w = (Return r, w') ->
  r = Some (mermaid_para __file__ code attr).
Proof.
  rewrite mermaid_body. unfold bind at 1, isfile.
  intros H. now apply bind_ret_inv in H as [-> _].
Qed.
End MermaidFacts.

Lemma mermaid_dst_flat __file__ code :
  mermaid_dst __file__ code
  = (MD_DIR __file__ ++ "/mermaid-images/" ++ sha1 code ++ ".svg")%string.
Proof.
  unfold mermaid_dst, mermaid_dir. now rewrite !append_assoc.
Qed.

(** Creating the cache directory never raises, whatever [os.mkdir] does. *)
Lemma make_cache_dir_returns __file__ w :
  exists w', make_cache_dir __file__ w = (Return tt, w').
Proof.
  unfold make_cache_dir, try_except_OSError, mkdir, bind, emit, raise, set_fs,
    stderr_write; simpl.
  destruct (_ || _); simpl; [eauto|].
  destruct (under_file _ _); simpl; [eauto|].
  destruct (negb _); simpl; eauto.
Qed.

Lemma mkdir_raises_OSError p w e w' :
  mkdir p w = (Raise e, w') ->
  is_OSError e = true /\ w' = mkWorld (fs w) (programs w) (log w ++ [EvMkdir p]).
Proof.
  unfold mkdir, bind, emit, raise, set_fs; simpl.
  destruct (_ || _); simpl; [now intros [= <- <-]|].
  destruct (under_file _ _); simpl; [now intros [= <- <-]|].
  destruct (negb _); simpl; [now intros [= <- <-]|discriminate].
Qed.

Lemma graphviz_returned __file__ elem doc w r w' :
  graphviz __file__ elem doc w = (Return r, w') -> r = None.
Proof.
  destruct elem as [[]| | |]; cbn; try (now intros [= <- _]).
  case_bool_decide; [discriminate | now intros [= <- _]].
Qed.

Lemma mermaid_not_block __file__ elem doc :
  (forall code attr, elem = Blk (CodeBlock code attr) -> "mermaid" ∉ classes attr) ->
  mermaid __file__ elem doc = ret None.
Proof.
  intros H. destruct elem as [[]| | |]; cbn; try reflexivity.
  now rewrite bool_decide_eq_false_2 by now apply (H text attr).
Qed.

(** ** The node that [mermaid] returns *)



(** ** Errors while the image is made *)

Lemma bind_assoc {A B C} (m : M A) (k : A -> M B) (h : B -> M C) w :
  bind (bind m k) h w = bind m (fun a => bind (k a) h) w.
Proof. unfold bind. now destruct (m w) as [[a|e] w1]. Qed.

Lemma bind_seq3 {A} (a b c : M unit) (k : unit -> M A) w w2 :
  (a ;; b) w = (Return tt, w2) -> bind (a ;; b ;; c) k w = bind c k w2.
Proof.
  unfold bind. destruct (a w) as [[[]|e] w1]; [|discriminate].
  destruct (b w1) as [[[]|e] w1']; [|discriminate].
  now intros [= ->].
Qed.

Lemma check_call_missing argv w :
  programs w !! hd "" argv = None ->
  check_call argv w
  = (Raise (FileNotFoundError (hd "" argv)),
     mkWorld (fs w) (programs w) (log w ++ [EvExec argv])).
Proof.
  intros H. unfold check_call, bind, emit, raise. cbn [programs].
  unfold Program in *. now rewrite H.
Qed.

Lemma check_call_status argv w run status f' :
  programs w !! hd "" argv = Some run ->
  run argv (fs w) = (status, f') ->
  check_call argv w
  = (if (status =? 0)%Z then Return tt else Raise (CalledProcessError status argv),
     mkWorld f' (programs w) (log w ++ [EvExec argv])).
Proof.
  intros H Hrun. unfold check_call, bind, emit, raise, set_fs, ret.
  cbn [programs fs]. unfold Program in *. rewrite H, Hrun.
  now destruct (status =? 0)%Z.
Qed.

(** C7: while [mermaid] makes an image, an [OSError] out of [os.mkdir] is
    caught and dropped, and the action goes on to write the snippet and run
    the renderer; a renderer that is not installed, or that exits with a
    status other than 0, makes the action raise. *)
Theorem mermaid_error_handling
    (__file__ code : string) (attr : Attr) (doc : Doc) (w : World) :
  "mermaid" ∈ classes attr ->
  files (fs w) !! mermaid_src __file__ code = None ->
  let block := Blk (CodeBlock code attr) in
  let argv := ["mmdc"; "-i"; mermaid_src __file__ code; "-o"; mermaid_dst __file__ code] in
  (forall e w1,
      mkdir (mermaid_dir __file__) w = (Raise e, w1) ->
      is_OSError e = true
      /\ make_cache_dir __file__ w = (Return tt, w1)
      /\ mermaid __file__ block doc w
         = (write_file (mermaid_src __file__ code) code ;;
            check_call argv ;;
            ret (Some (mermaid_para __file__ code attr))) w1)
  /\ (forall w2,
         (make_cache_dir __file__ ;; write_file (mermaid_src __file__ code) code) w
         = (Return tt, w2) ->
         (programs w2 !! "mmdc" = None ->
          fst (mermaid __file__ block doc w) = Raise (FileNotFoundError "mmdc"))
         /\ (forall run status f',
                programs w2 !! "mmdc" = Some run ->
                run argv (fs w2) = (status, f') ->
                status <> 0%Z ->
                fst (mermaid __file__ block doc w)
                = Raise (CalledProcessError status argv))).
Proof.
  intros Hclass Hnone block argv. subst block.
  rewrite (mermaid_uncached __file__ code attr doc Hclass w Hnone).
  unfold regenerate. fold argv. change (mermaid_argv __file__ code) with argv.
  split.
  - intros e w1 Hmk.
    destruct (mkdir_raises_OSError _ _ _ _ Hmk) as [HOS _].
    assert (Hdir : make_cache_dir __file__ w = (Return tt, w1)).
    { unfold make_cache_dir, try_except_OSError.
      rewrite (bind_Raise _ _ _ _ _ Hmk). now rewrite HOS. }
    repeat split; [assumption..|].
    rewrite bind_assoc, (bind_Return _ _ _ _ _ Hdir). now rewrite bind_assoc.
  - intros w2 Hpre.
    rewrite (bind_seq3 _ _ _ _ _ _ Hpre). split.
    + intros Hmiss. now rewrite (bind_Raise _ _ _ _ _ (check_call_missing argv w2 Hmiss)).
    + intros run status f' Hrun Hst Hne.
      pose proof (check_call_status argv w2 run status f' Hrun Hst) as Hcc.
      destruct (Z.eqb_spec status 0); [contradiction|].
      now rewrite (bind_Raise _ _ _ _ _ Hcc).
Qed.

Lemma mermaid_error_handling_witness :
  let w := Demo.with_dir {[ "mmdc" := Demo.mmdc_broken ]} in
  mkdir "md/mermaid-images" w
  = (Raise (FileExistsError "md/mermaid-images"),
     mkWorld (fs w) (programs w) [EvMkdir "md/mermaid-images"])
  /\ make_cache_dir Demo.script w
     = (Return tt, mkWorld (fs w) (programs w) [EvMkdir "md/mermaid-images"])
  /\ fst (mermaid Demo.script Demo.diagram Demo.doc w)
     = Raise (CalledProcessError 1 Demo.argv)
  /\ fst (mermaid Demo.script Demo.diagram Demo.doc (Demo.with_dir ∅))
     = Raise (FileNotFoundError "mmdc").
Proof.
  intros w.
  assert (Hin : "mermaid" ∈ ["mermaid"]) by in_list.
  assert (Hmk : mkdir "md/mermaid-images" w
                = (Raise (FileExistsError "md/mermaid-images"),
                   mkWorld (fs w) (programs w) [EvMkdir "md/mermaid-images"]))
    by (vm_compute; reflexivity).
  split; [exact Hmk|]. split; [|split].
  - destruct (mermaid_error_handling Demo.script Demo.code
                (mkAttr "fig1" ["mermaid"] [("caption", "Flow")]) Demo.doc w Hin
                ltac:(vm_compute; reflexivity)) as [Hdir _].
    exact (proj1 (proj2 (Hdir _ _ Hmk))).
  - destruct (mermaid_error_handling Demo.script Demo.code
                (mkAttr "fig1" ["mermaid"] [("caption", "Flow")]) Demo.doc w Hin
                ltac:(vm_compute; reflexivity)) as [_ Hrender].
    apply (proj2 (Hrender
             (snd ((make_cache_dir Demo.script ;;
                    write_file (mermaid_src Demo.script Demo.code) Demo.code) w))
             ltac:(vm_compute; reflexivity))
             Demo.mmdc_broken 1%Z
             (mkFS (<[Demo.src_file := Demo.code]> (files Demo.fresh_fs))
                   {[ "md"; "md/mermaid-images" ]}));
      [vm_compute; reflexivity | vm_compute; reflexivity | lia].
  - destruct (mermaid_error_handling Demo.script Demo.code
                (mkAttr "fig1" ["mermaid"] [("caption", "Flow")]) Demo.doc
                (Demo.with_dir ∅) Hin ltac:(vm_compute; reflexivity)) as [_ Hrender].
    apply (proj1 (Hrender
             (snd ((make_cache_dir Demo.script ;;
                    write_file (mermaid_src Demo.script Demo.code) Demo.code)
                     (Demo.with_dir ∅)))
             ltac:(vm_compute; reflexivity))).
    vm_compute. reflexivity.
Defined.

(** ** What an action depends on, and what it leaves behind *)

Create HintDb effects.

Lemma keeps_ret {A} (a : A) : keeps_programs (ret a).
Proof. now intros w. Qed.

Lemma keeps_raise {A} e : keeps_programs (@raise A e).
Proof. now intros w. Qed.

Lemma keeps_bind {A B} (m : M A) (k : A -> M B) :
  keeps_programs m -> (forall a, keeps_programs (k a)) -> keeps_programs (bind m k).
Proof.
  intros Hm Hk w. unfold bind. specialize (Hm w).
  destruct (m w) as [[a|e] w1]; simpl in *; [|assumption].
  now rewrite Hk.
Qed.

Lemma keeps_try (body : M unit) :
  keeps_programs body -> keeps_programs (try_except_OSError body).
Proof.
  intros Hb w. unfold try_except_OSError. specialize (Hb w).
  destruct (body w) as [[[]|e] w1]; simpl in *; [assumption|].
  now destruct (is_OSError e).
Qed.

Lemma keeps_emit ev : keeps_programs (emit ev).
Proof. now intros w. Qed.

Lemma keeps_isfile p : keeps_programs (isfile p).
Proof. now intros w. Qed.

Lemma keeps_mkdir p : keeps_programs (mkdir p).
Proof.
  intros w. unfold mkdir, bind, emit, raise, set_fs; simpl.
  destruct (_ || _); [reflexivity|]. destruct (under_file _ _); [reflexivity|].
  now destruct (negb _).
Qed.

Lemma keeps_write_file p text : keeps_programs (write_file p text).
Proof.
  intros w. unfold write_file, bind, emit, raise, set_fs; simpl.
  case_bool_decide; [reflexivity|]. destruct (under_file _ _); [reflexivity|].
  now destruct (negb _).
Qed.

Lemma keeps_check_call argv : keeps_programs (check_call argv).
Proof.
  intros w. unfold check_call, bind, emit, raise, set_fs, ret. cbn [programs fs].
  destruct (_ !! _) as [run|]; [|reflexivity].
  destruct (run argv (fs w)) as [status f']. now destruct (status =? 0)%Z.
Qed.

#[local] Hint Resolve keeps_ret keeps_raise keeps_try keeps_emit keeps_isfile
  keeps_mkdir keeps_write_file keeps_check_call : effects.
#[local] Hint Resolve respects_ret respects_raise respects_try respects_emit
  respects_isfile respects_mkdir respects_write_file respects_check_call : effects.

Lemma respects_mermaid __file__ elem doc : respects (mermaid __file__ elem doc).
Proof.
  destruct elem as [[]| | |]; cbn [mermaid]; auto with effects.
  case_bool_decide; auto with effects.
  apply respects_bind; [auto with effects|]. intros cached.
  apply respects_bind; [|auto with effects].
  destruct cached; cbn [negb]; [auto with effects|].
  apply respects_bind; [|intros _].
  - apply respects_try, respects_bind; [apply respects_mkdir | intros _; apply respects_emit].
  - apply respects_bind; [apply respects_write_file | intros _; apply respects_check_call].
Qed.

Lemma keeps_mermaid __file__ elem doc : keeps_programs (mermaid __file__ elem doc).
Proof.
  destruct elem as [[]| | |]; cbn [mermaid]; auto with effects.
  case_bool_decide; auto with effects.
  apply keeps_bind; [auto with effects|]. intros cached.
  apply keeps_bind; [|auto with effects].
  destruct cached; cbn [negb]; [auto with effects|].
  apply keeps_bind; [|intros _].
  - apply keeps_try, keeps_bind; [apply keeps_mkdir | intros _; apply keeps_emit].
  - apply keeps_bind; [apply keeps_write_file | intros _; apply keeps_check_call].
Qed.

(** [graphviz] stops at the unbound name before it touches anything. *)
Lemma graphviz_run __file__ elem doc w :
  graphviz __file__ elem doc w
  = (match elem with
     | Blk (CodeBlock _ attr) =>
         if bool_decide ("graphviz" ∈ classes attr)
         then Raise (NameError "pygraphviz") else Return None
     | _ => Return None
     end, w).
Proof.
  destruct elem as [[]| | |]; cbn; try reflexivity. now case_bool_decide.
Qed.

Lemma respects_action __file__ f elem doc : respects (action __file__ f elem doc).
Proof.
  destruct f; unfold action, pure_action;
    [apply respects_ret | apply respects_ret | | apply respects_mermaid
    | apply respects_ret].
  intros w1 w2 H. now rewrite !graphviz_run.
Qed.

Lemma keeps_action __file__ f elem doc : keeps_programs (action __file__ f elem doc).
Proof.
  destruct f; unfold action, pure_action;
    [apply keeps_ret | apply keeps_ret | | apply keeps_mermaid | apply keeps_ret].
  intros w. now rewrite graphviz_run.
Qed.

Lemma action_returned __file__ f elem doc w1 w2 r1 r2 w1' w2' :
  action __file__ f elem doc w1 = (Return r1, w1') ->
  action __file__ f elem doc w2 = (Return r2, w2') ->
  r1 = r2.
Proof.
  destruct f; unfold action, pure_action, ret;
    try (intros [= <- _] [= <- _]; reflexivity).
  - intros H1 H2. apply graphviz_returned in H1, H2. congruence.
  - destruct (is_CodeBlock elem) eqn:HC.
    + destruct elem as [[]| | |]; try discriminate.
      destruct (decide ("mermaid" ∈ classes attr)) as [Hin|Hout].
      * intros H1 H2. apply mermaid_returned in H1, H2; congruence.
      * rewrite mermaid_not_block; [|now intros ? ? [= <- <-]].
        intros [= <- _] [= <- _]. reflexivity.
    + rewrite mermaid_not_block; [|intros ? ? ->; discriminate].
      intros [= <- _] [= <- _]. reflexivity.
Qed.

(** ** When [mermaid] makes the image again *)

Lemma grows_ret {A} (a : A) : grows 0 (ret a).
Proof. intros w. simpl. lia. Qed.

Lemma grows_raise {A} e : grows 0 (@raise A e).
Proof. intros w. simpl. lia. Qed.

Lemma grows_emit ev : grows 1 (emit ev).
Proof. intros w. simpl. rewrite length_app. simpl. lia. Qed.

Lemma grows_weaken {A} n (m : M A) : grows n m -> grows 0 m.
Proof. intros H w. specialize (H w). lia. Qed.

Lemma grows_bind {A B} n (m : M A) (k : A -> M B) :
  grows n m -> (forall a, grows 0 (k a)) -> grows n (bind m k).
Proof.
  intros Hm Hk w. unfold bind. specialize (Hm w).
  destruct (m w) as [[a|e] w1]; simpl in *; [|assumption].
  specialize (Hk a w1). lia.
Qed.

Lemma grows_try n (body : M unit) : grows n body -> grows n (try_except_OSError body).
Proof.
  intros Hb w. unfold try_except_OSError. specialize (Hb w).
  destruct (body w) as [[[]|e] w1]; simpl in *; [assumption|].
  now destruct (is_OSError e).
Qed.

Lemma grows_mkdir p : grows 1 (mkdir p).
Proof.
  apply grows_bind; [apply grows_emit|]. intros _ w. cbv beta zeta.
  destruct (_ || _); [simpl; lia|]. destruct (under_file _ _); [simpl; lia|].
  destruct (negb _); simpl; lia.
Qed.

Lemma grows_write_file p text : grows 1 (write_file p text).
Proof.
  apply grows_bind; [apply grows_emit|]. intros _ w. cbv beta zeta.
  case_bool_decide; [simpl; lia|]. destruct (under_file _ _); [simpl; lia|].
  destruct (negb _); simpl; lia.
Qed.

Lemma grows_check_call argv : grows 1 (check_call argv).
Proof.
  apply grows_bind; [apply grows_emit|]. intros _ w. cbv beta zeta.
  destruct (_ !! _) as [run|]; [|simpl; lia].
  destruct (run argv (fs w)) as [status f']. unfold bind, set_fs.
  destruct (status =? 0)%Z; simpl; lia.
Qed.

Lemma grows_regenerate __file__ code : grows 1 (regenerate __file__ code).
Proof.
  apply grows_bind.
  - apply grows_try, grows_bind; [apply grows_mkdir|].
    intros _. apply (grows_weaken 1), grows_emit.
  - intros _. apply grows_bind; [apply (grows_weaken 1), grows_write_file|].
    intros _. apply (grows_weaken 1), grows_check_call.
Qed.

(** What line 70 decides: the action leaves the world alone exactly when
    the [.mmd] file of the text is there. *)
Lemma mermaid_idle_iff_mmd __file__ code attr doc w :
  "mermaid" ∈ classes attr ->
  snd (mermaid __file__ (Blk (CodeBlock code attr)) doc w) = w
  <-> is_Some (files (fs w) !! mermaid_src __file__ code).
Proof.
  intros Hclass. split.
  - intros Hidle. destruct (files (fs w) !! mermaid_src __file__ code) eqn:E; [eauto|].
    exfalso. rewrite mermaid_uncached in Hidle by assumption.
    pose proof (grows_bind 1 _ (fun _ => ret (Some (mermaid_para __file__ code attr)))
                  (grows_regenerate __file__ code) (fun _ => grows_ret _) w) as Hg.
    rewrite Hidle in Hg. lia.
  - intros Hc. now rewrite mermaid_cached.
Qed.

(** C1, at an input where the code departs from it.  A first run with a
    renderer that fails leaves the [.mmd] file and no [.svg] file.  The next
    run, with a renderer that works, then writes nothing and starts nothing
    although no output file is there, and returns an Image of the missing
    file.  The other way round, with the [.svg] file there and the [.mmd]
    file not, the snippet is written and the renderer started. *)
Theorem mermaid_checks_mmd_not_image :
  let broken := Demo.fresh {[ "mmdc" := Demo.mmdc_broken ]} in
  let left := snd (mermaid Demo.script Demo.diagram Demo.doc broken) in
  let repaired := mkWorld (fs left) {[ "mmdc" := Demo.mmdc_ok ]} (log left) in
  let by_hand := Demo.only_image {[ "mmdc" := Demo.mmdc_ok ]} in
  (fst (mermaid Demo.script Demo.diagram Demo.doc broken)
   = Raise (CalledProcessError 1 Demo.argv)
   /\ files (fs left) !! Demo.src_file = Some Demo.code
   /\ files (fs left) !! Demo.dst_img = None
   /\ mermaid Demo.script Demo.diagram Demo.doc repaired
      = (Return (Some Demo.image), repaired))
  /\ (files (fs by_hand) !! Demo.dst_img = Some "<svg/>"
      /\ files (fs by_hand) !! Demo.src_file = None
      /\ log (snd (mermaid Demo.script Demo.diagram Demo.doc by_hand))
         = [EvMkdir "md/mermaid-images";
            EvWrite Demo.src_file Demo.code;
            EvExec Demo.argv]).
Proof. vm_compute. repeat split. Qed.

(** ** Registration *)

(** C3 as stated fails: [graphviz] is defined but not in the list given to
    [pf.run_filters]. *)
Lemma registration_counterexample :
  F_graphviz ∈ defined_filters
  /\ (F_graphviz ∉ registered_filters)
  /\ ~ (forall f, f ∈ defined_filters -> f ∈ registered_filters)
  /\ length registered_filters <> 5.
Proof.
  assert (Hout : F_graphviz ∉ registered_filters) by (unfold registered_filters; not_in_list).
  assert (Hin : F_graphviz ∈ defined_filters) by (unfold defined_filters; in_list).
  repeat split; try assumption.
  - intros Hall. exact (Hout (Hall _ Hin)).
  - discriminate.
Qed.

(** C3, as the code has it: four actions are registered, [h1hr], [bq],
    [mermaid] and [op], each once and in this order; of the five that are
    defined, [graphviz] is the one left out. *)
Theorem registration :
  length registered_filters = 4
  /\ NoDup registered_filters
  /\ (forall f, f ∈ registered_filters <-> (f ∈ defined_filters /\ f <> F_graphviz))
  /\ (forall f, f ∈ defined_filters)
  /\ registered_filters !! 0 = Some F_h1hr
  /\ registered_filters !! 1 = Some F_bq
  /\ registered_filters !! 2 = Some F_mermaid
  /\ registered_filters !! 3 = Some F_op.
Proof.
  assert (Hdef : forall f, f ∈ defined_filters)
    by (intros f; destruct f; unfold defined_filters; in_list).
  split; [reflexivity|]. split; [|split; [|split; [exact Hdef|now repeat split]]].
  - unfold registered_filters. repeat (constructor; [not_in_list|]). constructor.
  - intros f. split.
    + intros H. split; [apply Hdef|].
      intros ->. revert H. change (F_graphviz ∉ registered_filters).
      unfold registered_filters. not_in_list.
    + intros [_ Hne]. destruct f; unfold registered_filters;
        [in_list | in_list | contradiction | in_list | in_list].
Qed.

(** * Further properties of the script *)

(** ** Cache file names *)

Lemma append_cons c (a b : string) : (String c a ++ b)%string = String c (a ++ b).
Proof. reflexivity. Qed.

Lemma all_chars_app p (a b : string) :
  all_chars p (a ++ b) = all_chars p a && all_chars p b.
Proof.
  induction a as [|c a IH]; [reflexivity|].
  rewrite append_cons. simpl. now rewrite IH, andb_assoc.
Qed.

Lemma all_chars_weaken (p q : ascii -> bool) s :
  (forall c, p c = true -> q c = true) -> all_chars p s = true -> all_chars q s = true.
Proof.
  intros Hpq. induction s as [|c s IH]; simpl; [reflexivity|].
  intros [Hc Hs]%andb_prop. now rewrite (Hpq c Hc), IH.
Qed.

Lemma hex_digit_is_hex d : (0 <= d < 16)%Z -> is_hex (SHA1.hex_digit d) = true.
Proof.
  intros Hd.
  assert (Hcases : In d [0; 1; 2; 3; 4; 5; 6; 7; 8; 9; 10; 11; 12; 13; 14; 15]%Z).
  { simpl. lia. }
  simpl in Hcases.
  repeat (destruct Hcases as [<-|Hcases]; [reflexivity|]). contradiction.
Qed.

Lemma hex_of_shape n x :
  String.length (SHA1.hex_of n x) = n /\ all_chars is_hex (SHA1.hex_of n x) = true.
Proof.
  induction n as [|n [IHl IHc]]; simpl; [now split|].
  split; [now rewrite IHl|]. rewrite IHc, andb_true_r.
  apply hex_digit_is_hex. change 15%Z with (Z.ones 4).
  rewrite Z.land_ones by lia. apply Z.mod_pos_bound. lia.
Qed.

(** The digest of any byte string is written as 40 characters, each one
    of 0-9 or a-f. *)
Lemma hexdigest_shape (msg : list Z) :
  String.length (SHA1.hexdigest msg) = 40
  /\ all_chars is_hex (SHA1.hexdigest msg) = true.
Proof.
  unfold SHA1.hexdigest. cbv zeta.
  rewrite !length_append, !all_chars_app.
  repeat match goal with
         | |- context [SHA1.hex_of 8 ?v] =>
             destruct (hex_of_shape 8 v) as [-> ->]
         end.
  now split.
Qed.

Lemma sha1_shape (x : string) :
  String.length (sha1 x) = 40 /\ all_chars is_hex (sha1 x) = true.
Proof. exact (hexdigest_shape (encode x)). Qed.

(** ** [sha1] on texts the encoding may not hold *)

Example sha1_str_abc :
  sha1_str UTF_8 [0x61; 0x62; 0x63]%Z = Ok "a9993e364706816aba3e25717850c26c9cd0d89d".
Proof. vm_compute. reflexivity. Qed.

(** 'é€😀', whose UTF-8 form has two, three and four bytes. *)
Example sha1_str_utf8 :
  encode_str UTF_8 [0xE9; 0x20AC; 0x1F600]%Z
  = Ok [0xC3; 0xA9; 0xE2; 0x82; 0xAC; 0xF0; 0x9F; 0x98; 0x80]%Z
  /\ sha1_str UTF_8 [0xE9; 0x20AC; 0x1F600]%Z
     = Ok "c18ebd62bacc0aac83670707d9204486ec605731"
  /\ sha1_str Latin_1 [0x61; 0xE9]%Z = Ok "103a3219a2dfe8085c4bedd72a6d715ed9d61e9e".
Proof. vm_compute. repeat split. Qed.

Example sha1_str_errors :
  sha1_str UTF_8 [0x61; 0x62; 0xD800; 0x63]%Z = UnicodeEncodeError 2
  /\ sha1_str UTF_8 [0xDC80]%Z = UnicodeEncodeError 0
  /\ sha1_str ASCII [0xE9]%Z = UnicodeEncodeError 0
  /\ sha1_str Latin_1 [0x61; 0x100]%Z = UnicodeEncodeError 1.
Proof. vm_compute. repeat split. Qed.



Lemma encode_from_ok enc i x bytes :
  encode_from enc i x = Ok bytes -> forallb (encodable enc) x = true.
Proof.
  revert i bytes. induction x as [|cp x IH]; intros i bytes; [reflexivity|].
  cbn [encode_from forallb]. unfold encodable at 1.
  destruct (encode_char enc cp); [|discriminate].
  destruct (encode_from enc (S i) x) eqn:E; [|discriminate].
  intros _. now rewrite (IH _ _ E).
Qed.

Lemma encode_from_error enc i x j :
  encode_from enc i x = UnicodeEncodeError j ->
  exists k cp,
    j = (i + k)%nat
    /\ nth_error x k = Some cp
    /\ encodable enc cp = false
    /\ forallb (encodable enc) (firstn k x) = true.
Proof.
  revert i. induction x as [|cp x IH]; intros i; [discriminate|].
  cbn [encode_from]. destruct (encode_char enc cp) as [bytes|] eqn:Ec.
  - destruct (encode_from enc (S i) x) eqn:E; [discriminate|].
    intros [= <-]. destruct (IH _ E) as (k & cp' & -> & Hn & Hc & Hf).
    exists (S k), cp'. cbn [nth_error firstn forallb]. unfold encodable at 2.
    rewrite Ec, Hf. repeat split; try assumption. lia.
  - intros [= <-]. exists 0%nat, cp. unfold encodable. rewrite Ec.
    repeat split. lia.
Qed.

(** X1: line 36 on any [str], under UTF-8, ASCII or Latin-1 as the
    file-system encoding.  When every code point can be encoded (under UTF-8:
    none is a surrogate), [sha1] returns 40 characters, each one of 0-9 or
    a-f; otherwise it raises [UnicodeEncodeError] at the first code point
    that cannot be encoded, and returns nothing. *)
Theorem sha1_is_40_hex (enc : Codec) (x : list Z) :
  match sha1_str enc x with
  | Ok h =>
      forallb (encodable enc) x = true
      /\ String.length h = 40
      /\ all_chars is_hex h = true
  | UnicodeEncodeError i =>
      exists cp,
        nth_error x i = Some cp
        /\ encodable enc cp = false
        /\ forallb (encodable enc) (firstn i x) = true
  end.
Proof.
  unfold sha1_str, encode_str.
  destruct (encode_from enc 0 x) as [bytes|i] eqn:E.
  - split; [exact (encode_from_ok _ _ _ _ E)|apply hexdigest_shape].
  - destruct (encode_from_error _ _ _ _ E) as (k & cp & -> & H). now exists cp.
Qed.

(** On a text of plain ASCII the three encodings agree, and [sha1] of the
    model is the value of line 36. *)
Lemma sha1_str_ascii enc (s : string) :
  all_chars (fun c => (nat_of_ascii c <? 128)%nat) s = true ->
  sha1_str enc (code_points s) = Ok (sha1 s).
Proof.
  intros H. unfold sha1_str, sha1, encode_str, code_points.
  assert (E : forall i, encode_from enc i (encode s) = Ok (encode s)).
  { unfold encode. induction s as [|c s IH]; intros i; [reflexivity|].
    cbn [all_chars] in H. apply andb_prop in H as [Hc Hs].
    cbn [list_ascii_of_string map encode_from].
    apply Nat.ltb_lt in Hc.
    assert (Hz : (Z.of_nat (nat_of_ascii c) <? 128)%Z = true) by (apply Z.ltb_lt; lia).
    assert (Hc' : encode_char enc (Z.of_nat (nat_of_ascii c))
                  = Some [Z.of_nat (nat_of_ascii c)]).
    { destruct enc; unfold encode_char; rewrite ?Hz; try reflexivity.
      now rewrite (proj2 (Z.ltb_lt _ 256)) by lia. }
    rewrite Hc', (IH Hs). reflexivity. }
  now rewrite E.
Qed.

Lemma is_hex_not_slash c : is_hex c = true -> not_slash c = true.
Proof.
  unfold is_hex, not_slash. intros H.
  destruct (Ascii.eqb_spec c "/") as [->|]; [discriminate H|reflexivity].
Qed.

Lemma list_of_app (a b : string) :
  list_ascii_of_string (a ++ b) = list_ascii_of_string a ++ list_ascii_of_string b.
Proof.
  induction a as [|c a IH]; [reflexivity|].
  rewrite append_cons. simpl. now rewrite IH.
Qed.

Lemma string_of_app (a b : list ascii) :
  string_of_list_ascii (a ++ b)
  = (string_of_list_ascii a ++ string_of_list_ascii b)%string.
Proof. induction a as [|c a IH]; simpl; [reflexivity|now rewrite IH]. Qed.

(** Going back from the end of a path, [drop_to_slash] passes the characters
    that are no slash. *)
Lemma drop_to_slash_base (b : string) (rest : list ascii) :
  all_chars not_slash b = true ->
  drop_to_slash (rev (list_ascii_of_string b) ++ rest) = drop_to_slash rest.
Proof.
  revert rest. induction b as [|c b IH]; intros rest; simpl; [reflexivity|].
  intros [Hc Hb]%andb_prop. rewrite <- app_assoc, IH by assumption.
  simpl. unfold not_slash in Hc. now destruct (Ascii.eqb c "/").
Qed.

Lemma dirname_join (d : string) (c : ascii) (b : string) :
  c <> "/"%char ->
  all_chars not_slash b = true ->
  dirname ((d ++ String c "") ++ "/" ++ b) = (d ++ String c "")%string.
Proof.
  intros Hc Hb. unfold dirname.
  rewrite !list_of_app. cbn [list_ascii_of_string app].
  rewrite !rev_app_distr. cbn [rev app].
  rewrite <- !app_assoc. cbn [app].
  rewrite drop_to_slash_base by assumption.
  cbn [drop_to_slash]. rewrite Ascii.eqb_refl. cbn [rstrip_slash].
  rewrite Ascii.eqb_refl.
  destruct (Ascii.eqb_spec c "/") as [|_]; [contradiction|].
  rewrite rev_involutive, string_of_app, string_of_list_ascii_of_string.
  reflexivity.
Qed.

Lemma mermaid_dir_ends __file__ :
  mermaid_dir __file__ = ((MD_DIR __file__ ++ "/mermaid-image") ++ "s")%string.
Proof. unfold mermaid_dir. now rewrite append_assoc. Qed.

Lemma cache_file_dirname (__file__ code : string) :
  dirname (mermaid_src __file__ code) = mermaid_dir __file__
  /\ dirname (mermaid_dst __file__ code) = mermaid_dir __file__.
Proof.
  destruct (sha1_shape code) as [_ Hhex].
  apply (all_chars_weaken _ _ _ is_hex_not_slash) in Hhex.
  unfold mermaid_src, mermaid_dst. rewrite mermaid_dir_ends.
  split; apply dirname_join; try discriminate;
    now rewrite all_chars_app, Hhex.
Qed.

(** X2: the [.mmd] and the [.svg] file of a snippet lie directly in the
    cache directory, wherever the script is. *)
Theorem cache_files_in_cache_dir (__file__ code : string) :
  dirname (mermaid_src __file__ code) = mermaid_dir __file__
  /\ dirname (mermaid_dst __file__ code) = mermaid_dir __file__.
Proof. exact (cache_file_dirname __file__ code). Qed.

Lemma drop_to_slash_none (s : string) :
  all_chars not_slash s = true -> drop_to_slash (rev (list_ascii_of_string s)) = [].
Proof.
  intros H. rewrite <- (app_nil_r (rev _)). now rewrite drop_to_slash_base.
Qed.

(** X3: when the path the script was started under contains no slash,
    [MD_DIR] is empty and the cache lies in '/mermaid-images', under the
    root of the file system. *)
Theorem cache_dir_at_root (__file__ code : string) :
  all_chars not_slash __file__ = true ->
  MD_DIR __file__ = ""
  /\ mermaid_dir __file__ = "/mermaid-images"
  /\ mermaid_src __file__ code = ("/mermaid-images/" ++ sha1 code ++ ".mmd")%string
  /\ mermaid_dst __file__ code = ("/mermaid-images/" ++ sha1 code ++ ".svg")%string.
Proof.
  intros H.
  assert (HMD : MD_DIR __file__ = "").
  { unfold MD_DIR, dirname. now rewrite drop_to_slash_none. }
  unfold mermaid_src, mermaid_dst, mermaid_dir. rewrite HMD. now repeat split.
Qed.

Lemma cache_dir_at_root_witness :
  MD_DIR "pandoc.py" = ""
  /\ mermaid_dir "pandoc.py" = "/mermaid-images"
  /\ mermaid_src "pandoc.py" Demo.code
     = ("/mermaid-images/" ++ sha1 Demo.code ++ ".mmd")%string
  /\ mermaid_dst "pandoc.py" Demo.code
     = ("/mermaid-images/" ++ sha1 Demo.code ++ ".svg")%string.
Proof. apply cache_dir_at_root. reflexivity. Defined.

Lemma append_same_length (a b x y : string) :
  String.length a = String.length b ->
  (a ++ x = b ++ y)%string -> a = b /\ x = y.
Proof.
  revert b. induction a as [|c a IH]; intros [|c' b]; try discriminate.
  - now intros _.
  - rewrite !append_cons. intros [= Hl] [= -> Hab].
    destruct (IH b Hl Hab) as [-> ->]. now split.
Qed.

Lemma cache_src_ne_dst (__file__ code1 code2 : string) :
  mermaid_src __file__ code1 <> mermaid_dst __file__ code2.
Proof.
  assert (Hlen : String.length (sha1 code1) = String.length (sha1 code2)).
  { destruct (sha1_shape code1) as [-> _].
    now destruct (sha1_shape code2) as [-> _]. }
  unfold mermaid_src, mermaid_dst. intros H. do 2 apply String.app_inj in H.
  apply append_same_length in H as [_ H]; [discriminate H|assumption].
Qed.

(** X4: two snippets share their [.mmd] file (and their [.svg] file) only
    if their SHA-1 values are the same, and no [.mmd] path is the [.svg]
    path of any snippet. *)
Theorem cache_paths_apart (__file__ code1 code2 : string) :
  (mermaid_src __file__ code1 = mermaid_src __file__ code2 <-> sha1 code1 = sha1 code2)
  /\ (mermaid_dst __file__ code1 = mermaid_dst __file__ code2 <-> sha1 code1 = sha1 code2)
  /\ mermaid_src __file__ code1 <> mermaid_dst __file__ code2.
Proof.
  assert (Hlen : String.length (sha1 code1) = String.length (sha1 code2)).
  { destruct (sha1_shape code1) as [-> _].
    now destruct (sha1_shape code2) as [-> _]. }
  unfold mermaid_src, mermaid_dst. repeat split.
  - intros H. do 2 apply String.app_inj in H.
    now apply append_same_length in H as [? _].
  - now intros ->.
  - intros H. do 2 apply String.app_inj in H.
    now apply append_same_length in H as [? _].
  - now intros ->.
  - intros H. do 2 apply String.app_inj in H.
    apply append_same_length in H as [_ H]; [discriminate H|assumption].
Qed.

(** ** The walk up a path *)

Lemma drop_to_slash_suffix r : exists pre, r = pre ++ drop_to_slash r.
Proof.
  induction r as [|c r [pre IH]]; [now exists []|]. cbn [drop_to_slash].
  destruct (Ascii.eqb c "/"); [now exists []|].
  exists (c :: pre). cbn [app]. now rewrite <- IH.
Qed.

Lemma rstrip_slash_suffix r : exists pre, r = pre ++ rstrip_slash r.
Proof.
  induction r as [|c r [pre IH]]; [now exists []|]. cbn [rstrip_slash].
  destruct (Ascii.eqb c "/"); [|now exists []].
  exists (c :: pre). cbn [app]. now rewrite <- IH.
Qed.

(** [dirname p] is the beginning of [p]. *)
Lemma dirname_prefix p : exists rest, p = (dirname p ++ rest)%string.
Proof.
  assert (H : exists pre, rev (list_ascii_of_string p)
                          = pre ++ rev (list_ascii_of_string (dirname p))).
  { unfold dirname.
    destruct (drop_to_slash_suffix (rev (list_ascii_of_string p))) as [pre1 H1].
    set (head := drop_to_slash _) in *.
    destruct (rstrip_slash_suffix head) as [pre2 H2].
    destruct (rstrip_slash head) as [|c stripped] eqn:E.
    - exists pre1. now rewrite list_ascii_of_string_of_list_ascii, rev_involutive.
    - exists (pre1 ++ pre2).
      rewrite list_ascii_of_string_of_list_ascii, rev_involutive, <- app_assoc.
      now rewrite <- H2. }
  destruct H as [pre H]. exists (string_of_list_ascii (rev pre)).
  apply (f_equal (@rev ascii)) in H. rewrite rev_app_distr, !rev_involutive in H.
  apply (f_equal string_of_list_ascii) in H.
  now rewrite string_of_app, !string_of_list_ascii_of_string in H.
Qed.

Lemma dirname_shorter p : dirname p <> p -> String.length (dirname p) < String.length p.
Proof.
  intros Hne. destruct (dirname_prefix p) as [rest H].
  destruct rest as [|c rest].
  - exfalso. apply Hne. rewrite H at 2. clear.
    induction (dirname p) as [|c s IH]; [reflexivity|].
    rewrite append_cons. now rewrite <- IH.
  - rewrite H at 2. rewrite length_append. simpl. lia.
Qed.

(** The fuel of [under_file] is enough: more of it changes nothing. *)
Lemma under_file_fuel_any f n m p :
  String.length p <= n -> String.length p <= m ->
  under_file_fuel n p f = under_file_fuel m p f.
Proof.
  revert m p. induction n as [|n IH]; intros m p Hn Hm.
  - destruct p; [|simpl in Hn; lia]. now destruct m.
  - destruct m as [|m]; [destruct p; [reflexivity|simpl in Hm; lia]|].
    cbn [under_file_fuel].
    destruct (bool_decide (dirname p = "")); [reflexivity|].
    destruct (bool_decide (is_Some _)); [reflexivity|].
    destruct (bool_decide (dirname p ∈ dirs f)); [reflexivity|]. cbn [orb].
    case_bool_decide as Hfix; [reflexivity|].
    pose proof (dirname_shorter p Hfix) as Hlt. apply IH; lia.
Qed.

Lemma under_file_fuel_enough f n p :
  String.length p <= n -> under_file_fuel n p f = under_file p f.
Proof. intros Hn. unfold under_file. now apply under_file_fuel_any. Qed.

Example under_file_ex :
  under_file "site.zip/mermaid-images/x.mmd" (fs (Demo.in_archive ∅)) = true
  /\ under_file "nope/md/mermaid-images/x.mmd" (fs (Demo.in_archive ∅)) = false
  /\ under_file "md/mermaid-images/x.mmd" Demo.fresh_fs = false
  /\ under_file "md/pandoc.py/x" Demo.fresh_fs = true.
Proof. vm_compute. repeat split. Qed.

(** ** What a run of [mermaid] does to the world *)

Lemma mkdir_run p w :
  mkdir p w
  = if returned (mkdir p w)
    then (Return tt, mkWorld (mkFS (files (fs w)) ({[p]} ∪ dirs (fs w)))
                             (programs w) (log w ++ [EvMkdir p]))
    else (fst (mkdir p w), mkWorld (fs w) (programs w) (log w ++ [EvMkdir p])).
Proof.
  unfold returned, mkdir, bind, emit, raise, set_fs; simpl.
  destruct (_ || _); [reflexivity|]. destruct (under_file _ _); [reflexivity|].
  now destruct (negb _).
Qed.

Lemma write_file_run p text w :
  write_file p text w
  = if returned (write_file p text w)
    then (Return tt, mkWorld (mkFS (<[p := text]> (files (fs w))) (dirs (fs w)))
                             (programs w) (log w ++ [EvWrite p text]))
    else (fst (write_file p text w),
          mkWorld (fs w) (programs w) (log w ++ [EvWrite p text])).
Proof.
  unfold returned, write_file, bind, emit, raise, set_fs; simpl.
  case_bool_decide; [reflexivity|]. destruct (under_file _ _); [reflexivity|].
  now destruct (negb _).
Qed.

Lemma check_call_log argv w :
  log (snd (check_call argv w)) = log w ++ [EvExec argv]
  /\ programs (snd (check_call argv w)) = programs w.
Proof.
  unfold check_call, bind, emit, raise, set_fs, ret. cbn [programs fs log].
  destruct (_ !! _) as [run|]; [|now split].
  destruct (run argv (fs w)) as [status f']. now destruct (status =? 0)%Z.
Qed.

Lemma make_cache_dir_run __file__ w :
  let d := mermaid_dir __file__ in
  make_cache_dir __file__ w
  = (Return tt,
     if returned (mkdir d w)
     then mkWorld (mkFS (files (fs w)) ({[d]} ∪ dirs (fs w))) (programs w)
                  (log w ++ [EvMkdir d; EvStderr ("Created directory " ++ d ++ nl)])
     else mkWorld (fs w) (programs w) (log w ++ [EvMkdir d])).
Proof.
  intros d. unfold make_cache_dir, try_except_OSError. fold d.
  unfold bind at 1. rewrite (mkdir_run d w).
  destruct (returned (mkdir d w)) eqn:Hr.
  - unfold stderr_write, emit. cbn [fs programs log]. now rewrite <- app_assoc.
  - unfold returned in Hr. destruct (mkdir d w) as [[[]|e] w1] eqn:E; [discriminate|].
    cbn [fst]. now destruct (mkdir_raises_OSError _ _ _ _ E) as [-> _].
Qed.

(** X5: a run of [mermaid] that finds no [.mmd] file leaves, in this order,
    the call of [os.mkdir], the message on standard error if and only if
    the directory was made, the write of the snippet, and the start of the
    renderer if and only if the write went through; nothing else, and the
    renderer never before the write. *)
Theorem mermaid_trace (__file__ code : string) (attr : Attr) (doc : Doc) (w : World) :
  "mermaid" ∈ classes attr ->
  files (fs w) !! mermaid_src __file__ code = None ->
  let d := mermaid_dir __file__ in
  let src := mermaid_src __file__ code in
  let w1 := snd (make_cache_dir __file__ w) in
  log (snd (mermaid __file__ (Blk (CodeBlock code attr)) doc w))
  = log w
    ++ [EvMkdir d]
    ++ (if returned (mkdir d w)
        then [EvStderr ("Created directory " ++ d ++ nl)] else [])
    ++ [EvWrite src code]
    ++ (if returned (write_file src code w1)
        then [EvExec ["mmdc"; "-i"; src; "-o"; mermaid_dst __file__ code]] else []).
Proof.
  intros Hclass Hnone d src w1.
  rewrite mermaid_uncached by assumption. unfold regenerate.
  assert (Hdir : make_cache_dir __file__ w = (Return tt, w1)).
  { unfold w1. now rewrite make_cache_dir_run. }
  assert (Hlog1 : log w1 = log w ++ [EvMkdir d]
                    ++ (if returned (mkdir d w)
                        then [EvStderr ("Created directory " ++ d ++ nl)] else [])).
  { unfold w1. rewrite make_cache_dir_run. fold d. cbn [snd].
    now destruct (returned (mkdir d w)). }
  rewrite bind_assoc, (bind_Return _ _ _ _ _ Hdir), bind_assoc.
  fold src. unfold bind at 1.
  pose proof (write_file_run src code w1) as Hw.
  destruct (write_file src code w1) as [[[]|e] w2]; unfold returned in *;
    cbn [fst] in *; injection Hw as ->; cbn [snd log].
  - unfold bind.
    destruct (check_call_log (mermaid_argv __file__ code)
      (mkWorld (mkFS (<[src := code]> (files (fs w1))) (dirs (fs w1)))
               (programs w1) (log w1 ++ [EvWrite src code]))) as [Hl _].
    destruct (check_call _ _) as [[[]|e] w3]; unfold ret; cbn [snd log] in *;
      rewrite Hl, Hlog1, <- !app_assoc; reflexivity.
  - rewrite Hlog1, <- !app_assoc, ?app_nil_r. reflexivity.
Qed.

Lemma mermaid_trace_witness :
  log (snd (mermaid Demo.script Demo.diagram Demo.doc (Demo.with_dir ∅)))
  = [EvMkdir "md/mermaid-images"; EvWrite Demo.src_file Demo.code; EvExec Demo.argv].
Proof.
  refine (eq_trans
            (mermaid_trace Demo.script Demo.code
               (mkAttr "fig1" ["mermaid"] [("caption", "Flow")]) Demo.doc
               (Demo.with_dir ∅) ltac:(in_list) ltac:(vm_compute; reflexivity)) _).
  vm_compute. reflexivity.
Defined.

Lemma make_cache_dir_keeps __file__ w :
  files (fs (snd (make_cache_dir __file__ w))) = files (fs w)
  /\ programs (snd (make_cache_dir __file__ w)) = programs w.
Proof.
  rewrite make_cache_dir_run. cbn [snd]. now destruct (returned _).
Qed.

Lemma prepared_world __file__ code w w2 :
  (make_cache_dir __file__ ;; write_file (mermaid_src __file__ code) code) w
  = (Return tt, w2) ->
  files (fs w2) = <[mermaid_src __file__ code := code]> (files (fs w))
  /\ programs w2 = programs w.
Proof.
  destruct (make_cache_dir_keeps __file__ w) as [Hf Hp].
  unfold bind. rewrite make_cache_dir_run in *. cbn [snd] in *.
  set (w1 := if returned _ then _ else _) in *.
  pose proof (write_file_run (mermaid_src __file__ code) code w1) as Hw.
  destruct (write_file _ code w1) as [[[]|e] w3]; [|discriminate].
  unfold returned in Hw. cbn [fst] in Hw. injection Hw as ->.
  intros [= <-]. cbn [fs files programs]. now rewrite Hf, Hp.
Qed.

(** X6: a failed start of the renderer is remembered.  When the snippet was
    written and no [mmdc] is installed, the call raises; called again in the
    world it left, [mermaid] does nothing and returns the Image, while the
    [.svg] file is as absent or present as it was before the first call. *)
Theorem mermaid_failure_is_cached
    (__file__ code : string) (attr : Attr) (doc : Doc) (w w2 : World) :
  "mermaid" ∈ classes attr ->
  files (fs w) !! mermaid_src __file__ code = None ->
  (make_cache_dir __file__ ;; write_file (mermaid_src __file__ code) code) w
  = (Return tt, w2) ->
  programs w !! "mmdc" = None ->
  let block := Blk (CodeBlock code attr) in
  let w' := snd (mermaid __file__ block doc w) in
  fst (mermaid __file__ block doc w) = Raise (FileNotFoundError "mmdc")
  /\ mermaid __file__ block doc w' = (Return (Some (mermaid_para __file__ code attr)), w')
  /\ files (fs w') !! mermaid_dst __file__ code
     = files (fs w) !! mermaid_dst __file__ code.
Proof.
  intros Hclass Hnone Hpre Hmiss block w'. subst block.
  destruct (prepared_world _ _ _ _ Hpre) as [Hf Hp].
  assert (Hmiss2 : programs w2 !! hd "" (mermaid_argv __file__ code) = None).
  { cbn [hd mermaid_argv]. now rewrite Hp. }
  assert (Hrun : mermaid __file__ (Blk (CodeBlock code attr)) doc w
                 = (Raise (FileNotFoundError "mmdc"),
                    mkWorld (fs w2) (programs w2)
                            (log w2 ++ [EvExec (mermaid_argv __file__ code)]))).
  { rewrite mermaid_uncached by assumption. unfold regenerate.
    rewrite (bind_seq3 _ _ _ _ _ _ Hpre).
    now rewrite (bind_Raise _ _ _ _ _ (check_call_missing _ w2 Hmiss2)). }
  unfold w'. rewrite Hrun. cbn [fst snd fs]. split; [reflexivity|]. split.
  - apply mermaid_cached; [assumption|]. cbn [fs]. rewrite Hf.
    rewrite lookup_insert_eq. eauto.
  - rewrite Hf. apply lookup_insert_ne.
    apply cache_src_ne_dst.
Qed.

Lemma mermaid_failure_is_cached_witness :
  let w' := snd (mermaid Demo.script Demo.diagram Demo.doc (Demo.fresh ∅)) in
  fst (mermaid Demo.script Demo.diagram Demo.doc (Demo.fresh ∅))
  = Raise (FileNotFoundError "mmdc")
  /\ mermaid Demo.script Demo.diagram Demo.doc w'
     = (Return (Some (mermaid_para Demo.script Demo.code
                        (mkAttr "fig1" ["mermaid"] [("caption", "Flow")]))), w')
  /\ files (fs w') !! mermaid_dst Demo.script Demo.code
     = files (fs (Demo.fresh ∅)) !! mermaid_dst Demo.script Demo.code.
Proof.
  apply (mermaid_failure_is_cached Demo.script Demo.code
           (mkAttr "fig1" ["mermaid"] [("caption", "Flow")]) Demo.doc (Demo.fresh ∅)
           (snd ((make_cache_dir Demo.script ;;
                  write_file (mermaid_src Demo.script Demo.code) Demo.code)
                   (Demo.fresh ∅)))).
  - in_list.
  - vm_compute. reflexivity.
  - vm_compute. reflexivity.
  - vm_compute. reflexivity.
Defined.

Lemma check_call_returned argv w w' :
  check_call argv w = (Return tt, w') ->
  exists run f',
    programs w !! hd "" argv = Some run
    /\ run argv (fs w) = (0%Z, f')
    /\ w' = mkWorld f' (programs w) (log w ++ [EvExec argv]).
Proof.
  destruct (programs w !! hd "" argv) as [run|] eqn:Hp.
  - destruct (run argv (fs w)) as [status f'] eqn:Hr.
    rewrite (check_call_status _ _ _ _ _ Hp Hr).
    destruct (Z.eqb_spec status 0) as [->|]; [|discriminate].
    intros [= <-]. eauto.
  - rewrite (check_call_missing _ _ Hp). discriminate.
Qed.

(** X7: a call of [mermaid] that returns is followed by calls that do
    nothing and return the same node, provided the renderer, started as
    [mermaid] starts it, does not remove or replace the [.mmd] file. *)
Theorem mermaid_second_call_idle
    (__file__ code : string) (attr : Attr) (doc : Doc) (w w' : World)
    (r : option Element) :
  "mermaid" ∈ classes attr ->
  (forall run f,
      programs w !! "mmdc" = Some run ->
      files (snd (run (mermaid_argv __file__ code) f)) !! mermaid_src __file__ code
      = files f !! mermaid_src __file__ code) ->
  mermaid __file__ (Blk (CodeBlock code attr)) doc w = (Return r, w') ->
  mermaid __file__ (Blk (CodeBlock code attr)) doc w' = (Return r, w').
Proof.
  intros Hclass Hkeep Hrun.
  pose proof (mermaid_returned _ _ _ _ Hclass _ _ _ Hrun) as ->.
  apply mermaid_cached; [assumption|].
  destruct (files (fs w) !! mermaid_src __file__ code) as [old|] eqn:Hc.
  - rewrite mermaid_cached in Hrun by eauto. injection Hrun as <-. eauto.
  - rewrite mermaid_uncached in Hrun by assumption.
    apply bind_ret_inv in Hrun as [_ [[] Hregen]]. unfold regenerate in Hregen.
    destruct ((make_cache_dir __file__ ;;
               write_file (mermaid_src __file__ code) code) w)
      as [[[]|e] w2] eqn:Hpre.
    + destruct (prepared_world _ _ _ _ Hpre) as [Hf Hp].
      pose proof (bind_seq3 _ _ (check_call (mermaid_argv __file__ code)) ret
                    _ _ Hpre) as Hseq.
      unfold bind at 1 in Hseq. rewrite Hregen in Hseq.
      unfold bind, ret in Hseq.
      destruct (check_call (mermaid_argv __file__ code) w2) as [[[]|e] w3] eqn:Hcc;
        [|discriminate]. injection Hseq as ->.
      apply check_call_returned in Hcc as (run & f' & Hprog & Hexit & ->).
      cbn [hd mermaid_argv] in Hprog. rewrite Hp in Hprog.
      cbn [fs]. specialize (Hkeep run (fs w2) Hprog).
      rewrite Hexit in Hkeep. cbn [snd] in Hkeep.
      rewrite Hkeep, Hf, lookup_insert_eq. eauto.
    + exfalso. revert Hpre Hregen. unfold bind.
      destruct (make_cache_dir __file__ w) as [[[]|e1] w1]; [|discriminate].
      destruct (write_file _ code w1) as [[[]|e2] w3]; discriminate.
Qed.

Lemma mermaid_second_call_idle_witness :
  let w' := snd (mermaid Demo.script Demo.diagram Demo.doc
                   (Demo.fresh {[ "mmdc" := Demo.mmdc_ok ]})) in
  mermaid Demo.script Demo.diagram Demo.doc w' = (Return (Some Demo.image), w').
Proof.
  apply (mermaid_second_call_idle Demo.script Demo.code
           (mkAttr "fig1" ["mermaid"] [("caption", "Flow")]) Demo.doc
           (Demo.fresh {[ "mmdc" := Demo.mmdc_ok ]})).
  - in_list.
  - intros run f [= <-]. cbn [Demo.mmdc_ok snd files mermaid_argv nth].
    apply lookup_insert_ne. intros E. symmetry in E. revert E.
    apply cache_src_ne_dst.
  - vm_compute. reflexivity.
Defined.

Lemma under_file_parent p f :
  files f !! dirname p = None -> parent_ok p f = true -> under_file p f = false.
Proof.
  unfold under_file, parent_ok. destruct (String.length p); [reflexivity|].
  cbn [under_file_fuel]. intros -> Hpar.
  destruct (bool_decide (dirname p = "")); [reflexivity|].
  rewrite (bool_decide_eq_false_2 (is_Some None)) by (now intros [? ?]).
  cbn [orb] in Hpar. now rewrite Hpar.
Qed.

Lemma mkdir_returned p w :
  returned (mkdir p w)
  = negb (bool_decide (is_Some (files (fs w) !! p)) || bool_decide (p ∈ dirs (fs w)))
    && negb (under_file p (fs w))
    && parent_ok p (fs w).
Proof.
  unfold returned, mkdir, bind, emit, raise, set_fs; simpl.
  destruct (_ || _); [reflexivity|]. destruct (under_file _ _); [reflexivity|].
  now destruct (parent_ok _ _).
Qed.

Lemma write_file_returned p text w :
  returned (write_file p text w)
  = negb (bool_decide (p ∈ dirs (fs w)))
    && negb (under_file p (fs w))
    && parent_ok p (fs w).
Proof.
  unfold returned, write_file, bind, emit, raise, set_fs; simpl.
  case_bool_decide; [reflexivity|]. destruct (under_file _ _); [reflexivity|].
  now destruct (parent_ok _ _).
Qed.

Lemma mermaid_src_not_dir __file__ code : mermaid_src __file__ code <> mermaid_dir __file__.
Proof.
  intros E. apply (f_equal String.length) in E. revert E.
  unfold mermaid_src. rewrite !length_append.
  destruct (sha1_shape code) as [-> _]. simpl. lia.
Qed.

(** X8: the first run for a snippet goes through.  When neither the [.mmd]
    file nor a directory of its name is there, the cache directory is there
    or can be made, and [mmdc] is installed and exits with status 0 on the
    file system with the snippet written, then [mermaid] returns the Image
    and leaves exactly that: the directory, the snippet in its [.mmd] file,
    and what the renderer did. *)
Theorem mermaid_first_run
    (__file__ code : string) (attr : Attr) (doc : Doc) (w : World)
    (run : Program) (f' : FS) :
  let d := mermaid_dir __file__ in
  let src := mermaid_src __file__ code in
  let argv := ["mmdc"; "-i"; src; "-o"; mermaid_dst __file__ code] in
  "mermaid" ∈ classes attr ->
  files (fs w) !! src = None ->
  src ∉ dirs (fs w) ->
  files (fs w) !! d = None ->
  (d ∈ dirs (fs w)
   \/ (files (fs w) !! dirname d = None /\ parent_ok d (fs w) = true)) ->
  programs w !! "mmdc" = Some run ->
  run argv (mkFS (<[src := code]> (files (fs w))) ({[d]} ∪ dirs (fs w))) = (0%Z, f') ->
  mermaid __file__ (Blk (CodeBlock code attr)) doc w
  = (Return (Some (mermaid_para __file__ code attr)),
     mkWorld f' (programs w)
       (log w ++ [EvMkdir d]
          ++ (if bool_decide (d ∈ dirs (fs w)) then []
              else [EvStderr ("Created directory " ++ d ++ nl)])
          ++ [EvWrite src code; EvExec argv])).
Proof.
  intros d src argv Hclass Hnone Hnodir Hdfile Hdir Hprog Hexit.
  rewrite mermaid_uncached by assumption. unfold regenerate.
  fold d src. change (mermaid_argv __file__ code) with argv.
  assert (Hmade : returned (mkdir d w) = negb (bool_decide (d ∈ dirs (fs w)))).
  { rewrite mkdir_returned, Hdfile.
    rewrite (bool_decide_eq_false_2 (is_Some None)) by (now intros [? ?]).
    cbn [orb]. case_bool_decide as Hin; [reflexivity|].
    destruct Hdir as [|[Hup Hpar]]; [contradiction|].
    now rewrite (under_file_parent _ _ Hup Hpar), Hpar. }
  pose (w1 := mkWorld (mkFS (files (fs w)) ({[d]} ∪ dirs (fs w))) (programs w)
                (log w ++ [EvMkdir d]
                   ++ (if bool_decide (d ∈ dirs (fs w)) then []
                       else [EvStderr ("Created directory " ++ d ++ nl)]))).
  assert (Hcache : make_cache_dir __file__ w = (Return tt, w1)).
  { rewrite make_cache_dir_run. fold d. rewrite Hmade. unfold w1.
    case_bool_decide as Hin; cbn [negb]; [|reflexivity].
    rewrite (subseteq_union_1_L {[d]} (dirs (fs w)))
      by (now apply singleton_subseteq_l).
    now destruct (fs w). }
  assert (Hwrite : write_file src code w1
                   = (Return tt,
                      mkWorld (mkFS (<[src := code]> (files (fs w)))
                                    ({[d]} ∪ dirs (fs w)))
                              (programs w) (log w1 ++ [EvWrite src code]))).
  { rewrite write_file_run, write_file_returned. cbn [fs files dirs w1 programs].
    destruct (cache_file_dirname __file__ code) as [Hsrcdir _].
    fold src d in Hsrcdir.
    assert (Hpar : parent_ok src (mkFS (files (fs w)) ({[d]} ∪ dirs (fs w))) = true).
    { unfold parent_ok. rewrite Hsrcdir. cbn [dirs].
      rewrite (bool_decide_eq_true_2 (d ∈ _));
        [|apply elem_of_union_l, elem_of_singleton_2; reflexivity].
      now rewrite orb_true_r. }
    rewrite under_file_parent, Hpar;
      [|now cbn [files]; rewrite Hsrcdir|assumption].
    rewrite (bool_decide_eq_false_2 (src ∈ _)); [reflexivity|].
    intros [Hsd%elem_of_singleton_1|Hin]%elem_of_union; [|contradiction].
    now apply (mermaid_src_not_dir __file__ code). }
  rewrite bind_assoc, (bind_Return _ _ _ _ _ Hcache).
  rewrite bind_assoc, (bind_Return _ _ _ _ _ Hwrite).
  erewrite (bind_Return (check_call argv)).
  2:{ rewrite (check_call_status argv _ run 0%Z f'); [reflexivity|assumption|assumption]. }
  unfold ret. cbn [fs programs log w1]. now rewrite <- !app_assoc.
Qed.

Lemma mermaid_first_run_witness :
  mermaid Demo.script Demo.diagram Demo.doc (Demo.fresh {[ "mmdc" := Demo.mmdc_ok ]})
  = (Return (Some Demo.image),
     mkWorld (mkFS (<[Demo.dst_img := "<svg/>"]>
                      (<[Demo.src_file := Demo.code]> (files Demo.fresh_fs)))
                   {[ "md"; "md/mermaid-images" ]})
       {[ "mmdc" := Demo.mmdc_ok ]}
       [EvMkdir "md/mermaid-images";
        EvStderr ("Created directory md/mermaid-images" ++ nl);
        EvWrite Demo.src_file Demo.code;
        EvExec Demo.argv]).
Proof.
  refine (eq_trans
            (mermaid_first_run Demo.script Demo.code
               (mkAttr "fig1" ["mermaid"] [("caption", "Flow")]) Demo.doc
               (Demo.fresh {[ "mmdc" := Demo.mmdc_ok ]}) Demo.mmdc_ok
               (snd (Demo.mmdc_ok Demo.argv
                       (mkFS (<[Demo.src_file := Demo.code]> (files Demo.fresh_fs))
                             {[ "md"; "md/mermaid-images" ]})))
               ltac:(in_list) _ _ _ _ _ _) _).
  - vm_compute. reflexivity.
  - change (mermaid_src Demo.script Demo.code ∉ dirs Demo.fresh_fs).
    apply (bool_decide_eq_false_1 (_ ∈ _)). vm_compute. reflexivity.
  - vm_compute. reflexivity.
  - right. split; vm_compute; reflexivity.
  - vm_compute. reflexivity.
  - vm_compute. reflexivity.
  - vm_compute. reflexivity.
Defined.

(** ** [graphviz] and the registered actions *)

(** X9: [graphviz] never returns a node and never touches the world: on a
    CodeBlock with 'graphviz' among its classes it raises [NameError] for
    the name [pygraphviz], whatever the text, the document format and the
    cache hold; on any other node it returns [None]. *)
Theorem graphviz_is_dead (__file__ : string) (elem : Element) (doc : Doc) (w : World) :
  snd (graphviz __file__ elem doc w) = w
  /\ (forall r w', graphviz __file__ elem doc w = (Return r, w') -> r = None)
  /\ (forall code attr,
         elem = Blk (CodeBlock code attr) -> "graphviz" ∈ classes attr ->
         fst (graphviz __file__ elem doc w) = Raise (NameError "pygraphviz"))
  /\ ((forall code attr, elem = Blk (CodeBlock code attr) -> "graphviz" ∉ classes attr) ->
      graphviz __file__ elem doc w = (Return None, w)).
Proof.
  rewrite graphviz_run. cbn [fst snd]. repeat split.
  - intros r w'. destruct elem as [[]| | |]; try (now intros [= <- _]).
    case_bool_decide; [discriminate | now intros [= <- _]].
  - intros code attr -> Hin. now rewrite bool_decide_eq_true_2.
  - intros Hother. destruct elem as [[]| | |]; try reflexivity.
    now rewrite bool_decide_eq_false_2 by now apply (Hother text attr).
Qed.

Lemma graphviz_is_dead_witness :
  fst (graphviz Demo.script
         (Blk (CodeBlock "digraph { a -> b }" (mkAttr "" ["graphviz"] [])))
         (mkDoc [] "latex") (Demo.fresh ∅))
  = Raise (NameError "pygraphviz")
  /\ graphviz Demo.script Demo.diagram Demo.doc (Demo.fresh ∅)
     = (Return None, Demo.fresh ∅).
Proof.
  split.
  - apply (proj1 (proj2 (proj2 (graphviz_is_dead Demo.script _ (mkDoc [] "latex")
                                  (Demo.fresh ∅))))
             "digraph { a -> b }" (mkAttr "" ["graphviz"] []));
      [reflexivity | in_list].
  - apply (proj2 (proj2 (proj2 (graphviz_is_dead Demo.script Demo.diagram Demo.doc
                                  (Demo.fresh ∅))))).
    intros code attr [= <- <-]. not_in_list.
Defined.

(** The kind of node an action rewrites. *)
Lemma action_rewrites_kind __file__ f elem doc w e w' :
  action __file__ f elem doc w = (Return (Some e), w') ->
  match f with
  | F_h1hr => is_Header elem
  | F_bq => is_Div elem
  | F_graphviz => false
  | F_mermaid => is_CodeBlock elem
  | F_op => is_Code elem
  end = true.
Proof.
  destruct f; unfold action, pure_action, ret.
  - destruct elem as [[]| | |]; try discriminate. reflexivity.
  - destruct elem as [[]| | |]; try discriminate. reflexivity.
  - intros H. now apply graphviz_returned in H.
  - destruct (is_CodeBlock elem) eqn:HC; [reflexivity|].
    rewrite mermaid_not_block; [discriminate|]. intros ? ? ->. discriminate.
  - destruct elem as [|[]| |]; try discriminate. reflexivity.
Qed.

(** X10: the actions rewrite different kinds of node: if two of the five
    each return a replacement for the same node, in whatever worlds, they
    are the same action. *)
Theorem actions_disjoint
    (__file__ : string) (f1 f2 : Filter) (elem : Element) (doc : Doc)
    (w1 w2 w1' w2' : World) (e1 e2 : Element) :
  action __file__ f1 elem doc w1 = (Return (Some e1), w1') ->
  action __file__ f2 elem doc w2 = (Return (Some e2), w2') ->
  f1 = f2.
Proof.
  intros H1%action_rewrites_kind H2%action_rewrites_kind.
  destruct f1, f2; try reflexivity; try discriminate;
    destruct elem as [[]|[]| |]; discriminate.
Qed.

Lemma actions_disjoint_witness :
  let w1 := Demo.fresh {[ "mmdc" := Demo.mmdc_ok ]} in
  let w2 := snd (action Demo.script F_mermaid Demo.diagram Demo.doc w1) in
  action Demo.script F_mermaid Demo.diagram Demo.doc w1 = (Return (Some Demo.image), w2)
  /\ action Demo.script F_mermaid Demo.diagram Demo.doc w2 = (Return (Some Demo.image), w2)
  /\ F_mermaid = F_mermaid.
Proof.
  intros w1 w2.
  assert (H1 : action Demo.script F_mermaid Demo.diagram Demo.doc w1
               = (Return (Some Demo.image), w2)) by (vm_compute; reflexivity).
  assert (H2 : action Demo.script F_mermaid Demo.diagram Demo.doc w2
               = (Return (Some Demo.image), w2)) by (vm_compute; reflexivity).
  split; [exact H1|]. split; [exact H2|].
  exact (actions_disjoint Demo.script F_mermaid F_mermaid Demo.diagram Demo.doc
           w1 w2 w2 w2 Demo.image Demo.image H1 H2).
Defined.

(** X11: with the registration of line 91, a CodeBlock with class
    'graphviz' and without class 'mermaid' passes every registered action
    unchanged, and none of them touches the world for it: such diagrams stay
    code blocks. *)
Theorem graphviz_block_passes
    (__file__ : string) (f : Filter) (code : string) (attr : Attr) (doc : Doc)
    (w : World) :
  f ∈ registered_filters ->
  "graphviz" ∈ classes attr ->
  "mermaid" ∉ classes attr ->
  action __file__ f (Blk (CodeBlock code attr)) doc w = (Return None, w).
Proof.
  intros Hf _ Hm. destruct f; try reflexivity.
  - exfalso. revert Hf. change (F_graphviz ∉ registered_filters).
    unfold registered_filters. not_in_list.
  - unfold action. rewrite mermaid_not_block; [reflexivity|].
    now intros ? ? [= <- <-].
Qed.

Lemma graphviz_block_passes_witness :
  action Demo.script F_mermaid
    (Blk (CodeBlock "digraph { a -> b }" (mkAttr "" ["graphviz"] [])))
    Demo.doc (Demo.fresh ∅)
  = (Return None, Demo.fresh ∅).
Proof.
  apply graphviz_block_passes;
    [unfold registered_filters; in_list | in_list | not_in_list].
Defined.

(** ** [h1hr], [bq] and [op] on their own results *)

Lemma dict_set_twice k v d : dict_set k v (dict_set k v d) = dict_set k v d.
Proof.
  induction d as [|[k' v'] d IH]; simpl.
  - now rewrite String.eqb_refl.
  - destruct (String.eqb k k') eqn:E; simpl; rewrite ?String.eqb_refl, ?E; [reflexivity|].
    now rewrite IH.
Qed.

(** X12: [h1hr] changes a node at most once: a node it has returned comes
    back as it is when the action meets it again. *)
Theorem h1hr_idempotent (elem e' : Element) (doc doc' : Doc) :
  h1hr elem doc = Some e' -> h1hr e' doc' = Some e'.
Proof.
  destruct elem as [[]| | |]; try discriminate. cbn.
  destruct (Z.eqb_spec level 1) as [->|]; [|discriminate].
  intros [= <-]. cbn. unfold set_attributes. cbn. now rewrite dict_set_twice.
Qed.

Lemma h1hr_idempotent_witness :
  h1hr (Blk (Header [Str "Title"] 1
               (mkAttr "t" [] [("style", "border-bottom:1px solid #cccccc")])))
       Demo.doc
  = Some (Blk (Header [Str "Title"] 1
                 (mkAttr "t" [] [("style", "border-bottom:1px solid #cccccc")]))).
Proof.
  apply (h1hr_idempotent
           (Blk (Header [Str "Title"] 1 (mkAttr "t" [] [("style", "color:red")])))
           _ Demo.doc Demo.doc).
  reflexivity.
Defined.

Lemma dict_set_keys k v d :
  map fst (dict_set k v d)
  = if bool_decide (k ∈ map fst d) then map fst d else map fst d ++ [k].
Proof.
  induction d as [|[k' v'] d IH]; [reflexivity|]. cbn [dict_set map fst].
  destruct (String.eqb_spec k k') as [->|Hne].
  - now rewrite bool_decide_eq_true_2 by constructor.
  - cbn [map fst]. rewrite IH. case_bool_decide as Hin.
    + now rewrite bool_decide_eq_true_2 by now constructor.
    + rewrite bool_decide_eq_false_2; [reflexivity|].
      now intros [?|?]%elem_of_cons.
Qed.

(** X13: on a level-1 Header [h1hr] keeps the attributes in their order: a
    'style' attribute that is there is replaced where it stands (its old
    value is lost), one that is not is added after the others. *)
Theorem h1hr_attribute_order (content : list Inline) (attr : Attr) (doc : Doc) :
  exists attr',
    h1hr (Blk (Header content 1 attr)) doc = Some (Blk (Header content 1 attr'))
    /\ map fst (attributes attr')
       = (if bool_decide ("style" ∈ map fst (attributes attr))
          then map fst (attributes attr)
          else map fst (attributes attr) ++ ["style"])
    /\ length (attributes attr')
       = (if bool_decide ("style" ∈ map fst (attributes attr))
          then length (attributes attr)
          else S (length (attributes attr))).
Proof.
  eexists. split; [reflexivity|]. cbn [attributes set_attributes].
  split; [apply dict_set_keys|].
  rewrite <- (length_map fst (dict_set _ _ _)), dict_set_keys.
  case_bool_decide; rewrite ?length_app, length_map; simpl; lia.
Qed.

(** X14: [bq] run over its own result.  The BlockQuote made from a ['bq']
    Div is left alone; the Div made from a 'std' Div still has 'std' among
    its classes and is wrapped once more, so a second pass of the action
    nests a second BlockQuote. *)
Theorem bq_on_its_result (content : list Block) (attr : Attr) (doc doc' : Doc)
    (e' : Element) :
  bq (Blk (Div content attr)) doc = Some e' ->
  (classes attr = ["bq"] -> bq e' doc' = None)
  /\ ("std" ∈ classes attr ->
      bq e' doc'
      = Some (Blk (Div [BlockQuote [BlockQuote content]] (mkAttr "" (classes attr) [])))).
Proof.
  intros H. split.
  - intros Hbq. revert H. cbn. rewrite bool_decide_eq_true_2 by assumption.
    now intros [= <-].
  - intros Hstd. rewrite bq_Div_std in H by assumption. injection H as <-.
    now rewrite bq_Div_std.
Qed.

Lemma bq_on_its_result_witness :
  bq (Blk (Div [BlockQuote [Para [Str "wording"]]] (mkAttr "" ["std"] []))) Demo.doc
  = Some (Blk (Div [BlockQuote [BlockQuote [Para [Str "wording"]]]]
                 (mkAttr "" ["std"] []))).
Proof.
  apply (proj2 (bq_on_its_result [Para [Str "wording"]] (mkAttr "x" ["std"] [])
                  Demo.doc Demo.doc _ eq_refl)).
  in_list.
Defined.

Lemma append_cancel_r (a b s : string) : (a ++ s = b ++ s)%string -> a = b.
Proof.
  intros H. apply (append_same_length a b s s); [|assumption].
  apply (f_equal String.length) in H. rewrite !length_append in H. lia.
Qed.

(** X15: [op] keeps the whole text: two inline Code nodes with class 'op'
    get the same RawInline exactly when their texts are the same, whatever
    their identifiers, other classes and attributes. *)
Theorem op_text_only (text1 text2 : string) (attr1 attr2 : Attr) (doc1 doc2 : Doc) :
  "op" ∈ classes attr1 ->
  "op" ∈ classes attr2 ->
  (op (Inl (Code text1 attr1)) doc1 = op (Inl (Code text2 attr2)) doc2 <-> text1 = text2).
Proof.
  intros H1 H2. cbn. rewrite !bool_decide_eq_true_2 by assumption. split.
  - intros [= H]. exact (append_cancel_r text1 text2 _ H).
  - now intros ->.
Qed.

Lemma op_text_only_witness :
  op (Inl (Code "<=>" (mkAttr "a" ["op"] []))) Demo.doc
  = op (Inl (Code "<=>" (mkAttr "b" ["op"; "cpp"] [("k", "v")]))) Demo.doc.
Proof.
  apply (op_text_only "<=>" "<=>"); [in_list | in_list | reflexivity].
Defined.

(** X16: only the error of [os.mkdir] is dropped.  When the cache directory
    is not there and cannot be made, the call goes on to the write, which
    fails for want of the directory: with [NotADirectoryError] when the way
    to the [.mmd] path leads through a regular file, with
    [FileNotFoundError] otherwise.  This error, for the [.mmd] path, is what
    the caller gets; the renderer is not started and the file system is as
    before. *)
Theorem mermaid_no_cache_dir
    (__file__ code : string) (attr : Attr) (doc : Doc) (w : World) :
  let d := mermaid_dir __file__ in
  let src := mermaid_src __file__ code in
  "mermaid" ∈ classes attr ->
  files (fs w) !! src = None ->
  src ∉ dirs (fs w) ->
  files (fs w) !! d = None ->
  d ∉ dirs (fs w) ->
  returned (mkdir d w) = false ->
  mermaid __file__ (Blk (CodeBlock code attr)) doc w
  = (Raise (if under_file src (fs w)
            then NotADirectoryError src else FileNotFoundError src),
     mkWorld (fs w) (programs w) (log w ++ [EvMkdir d; EvWrite src code])).
Proof.
  intros d src Hclass Hnone Hsrc Hdfile Hddir Hmk.
  rewrite mermaid_uncached by assumption. unfold regenerate. fold d src.
  pose (w1 := mkWorld (fs w) (programs w) (log w ++ [EvMkdir d])).
  assert (Hcache : make_cache_dir __file__ w = (Return tt, w1)).
  { rewrite make_cache_dir_run. fold d. now rewrite Hmk. }
  assert (Hdne : d <> "").
  { intros E. apply (f_equal String.length) in E. revert E.
    unfold d, mermaid_dir. rewrite length_append. simpl. lia. }
  assert (Hwrite : write_file src code w1
                   = (Raise (if under_file src (fs w)
                             then NotADirectoryError src else FileNotFoundError src),
                      mkWorld (fs w) (programs w) (log w1 ++ [EvWrite src code]))).
  { unfold write_file, bind, emit, raise. cbn [fs w1 programs log].
    rewrite (bool_decide_eq_false_2 (src ∈ _)) by assumption.
    destruct (under_file src (fs w)); [reflexivity|].
    destruct (cache_file_dirname __file__ code) as [Hsrcdir _].
    fold src d in Hsrcdir. unfold parent_ok. rewrite Hsrcdir.
    rewrite (bool_decide_eq_false_2 (d = "")) by assumption.
    now rewrite (bool_decide_eq_false_2 (d ∈ _)) by assumption. }
  rewrite bind_assoc, (bind_Return _ _ _ _ _ Hcache).
  rewrite bind_assoc, (bind_Raise _ _ _ _ _ Hwrite).
  cbn [w1 log]. now rewrite <- app_assoc.
Qed.

Lemma mermaid_no_cache_dir_witness :
  mermaid "site/md/pandoc.py" Demo.diagram Demo.doc (Demo.fresh ∅)
  = (Raise (FileNotFoundError (mermaid_src "site/md/pandoc.py" Demo.code)),
     mkWorld Demo.fresh_fs ∅
       [EvMkdir "site/md/mermaid-images";
        EvWrite (mermaid_src "site/md/pandoc.py" Demo.code) Demo.code])
  /\ mermaid "site.zip/pandoc.py" Demo.diagram Demo.doc (Demo.in_archive ∅)
     = (Raise (NotADirectoryError (mermaid_src "site.zip/pandoc.py" Demo.code)),
        mkWorld (fs (Demo.in_archive ∅)) ∅
          [EvMkdir "site.zip/mermaid-images";
           EvWrite (mermaid_src "site.zip/pandoc.py" Demo.code) Demo.code]).
Proof.
  split.
  - refine (eq_trans
              (mermaid_no_cache_dir "site/md/pandoc.py" Demo.code
                 (mkAttr "fig1" ["mermaid"] [("caption", "Flow")]) Demo.doc
                 (Demo.fresh ∅) ltac:(in_list) _ _ _ _ _) _).
    + vm_compute. reflexivity.
    + change (mermaid_src "site/md/pandoc.py" Demo.code ∉ dirs Demo.fresh_fs).
      apply (bool_decide_eq_false_1 (_ ∈ _)). vm_compute. reflexivity.
    + vm_compute. reflexivity.
    + change (mermaid_dir "site/md/pandoc.py" ∉ dirs Demo.fresh_fs).
      apply (bool_decide_eq_false_1 (_ ∈ _)). vm_compute. reflexivity.
    + vm_compute. reflexivity.
    + vm_compute. reflexivity.
  - refine (eq_trans
              (mermaid_no_cache_dir "site.zip/pandoc.py" Demo.code
                 (mkAttr "fig1" ["mermaid"] [("caption", "Flow")]) Demo.doc
                 (Demo.in_archive ∅) ltac:(in_list) _ _ _ _ _) _).
    + vm_compute. reflexivity.
    + change (mermaid_src "site.zip/pandoc.py" Demo.code
              ∉ dirs (fs (Demo.in_archive ∅))).
      apply (bool_decide_eq_false_1 (_ ∈ _)). vm_compute. reflexivity.
    + vm_compute. reflexivity.
    + change (mermaid_dir "site.zip/pandoc.py" ∉ dirs (fs (Demo.in_archive ∅))).
      apply (bool_decide_eq_false_1 (_ ∈ _)). vm_compute. reflexivity.
    + vm_compute. reflexivity.
    + vm_compute. reflexivity.
Defined.

(** ** Statelessness *)

(** What a call of [mermaid] leaves behind is confined to the cache: the
    file system it leaves, or hands to the renderer, differs from the one it
    found at most in the snippet's [.mmd] file and in the cache directory. *)
Lemma mermaid_frame __file__ code attr doc w :
  "mermaid" ∈ classes attr ->
  let d := mermaid_dir __file__ in
  let src := mermaid_src __file__ code in
  let w' := snd (mermaid __file__ (Blk (CodeBlock code attr)) doc w) in
  exists f1,
    (forall p, p <> src -> files f1 !! p = files (fs w) !! p)
    /\ (forall p, p <> d -> (p ∈ dirs f1 <-> p ∈ dirs (fs w)))
    /\ (fs w' = f1
        \/ exists run,
             programs w !! "mmdc" = Some run
             /\ fs w' = snd (run (mermaid_argv __file__ code) f1)).
Proof.
  intros Hclass d src w'. subst w'.
  destruct (files (fs w) !! src) eqn:Hc.
  { rewrite mermaid_cached by eauto. exists (fs w). cbn [snd].
    split; [now intros|]. split; [now intros|]. now left. }
  rewrite mermaid_uncached by assumption. unfold regenerate. fold d src.
  pose (w1 := snd (make_cache_dir __file__ w)).
  assert (Hdir : make_cache_dir __file__ w = (Return tt, w1)).
  { unfold w1. now rewrite make_cache_dir_run. }
  assert (Hw1 : files (fs w1) = files (fs w)
                /\ programs w1 = programs w
                /\ forall p, p <> d -> (p ∈ dirs (fs w1) <-> p ∈ dirs (fs w))).
  { unfold w1. rewrite make_cache_dir_run. fold d. cbn [snd].
    destruct (returned _); cbn [fs files dirs programs]; repeat split; try tauto.
    - intros [->%elem_of_singleton|?]%elem_of_union; [contradiction|assumption].
    - intros ?. now apply elem_of_union_r. }
  destruct Hw1 as (Hf1 & Hp1 & Hd1).
  rewrite bind_assoc, (bind_Return _ _ _ _ _ Hdir), bind_assoc.
  pose proof (write_file_run (mermaid_src __file__ code) code w1) as Hw.
  destruct (write_file (mermaid_src __file__ code) code w1) as [[[]|e] w2] eqn:Hwr;
    unfold returned in Hw; cbn [fst] in Hw; injection Hw as Hw2.
  - rewrite (bind_Return _ _ _ _ _ Hwr).
    assert (Hfs2 : fs w2 = mkFS (<[src := code]> (files (fs w1))) (dirs (fs w1)))
      by now rewrite Hw2.
    assert (Hp2 : programs w2 = programs w) by now rewrite Hw2.
    exists (fs w2). split; [|split].
    + intros p Hp. rewrite Hfs2. cbn [files]. now rewrite lookup_insert_ne, Hf1.
    + intros p Hp. rewrite Hfs2. cbn [dirs]. now apply Hd1.
    + destruct (programs w2 !! hd "" (mermaid_argv __file__ code)) as [run|] eqn:Hprog.
      * destruct (run (mermaid_argv __file__ code) (fs w2)) as [status f'] eqn:Hrun.
        pose proof (check_call_status _ _ _ _ _ Hprog Hrun) as Hcc.
        right. exists run. split; [now rewrite <- Hp2|]. rewrite Hrun.
        destruct (status =? 0)%Z.
        -- now rewrite (bind_Return _ _ _ _ _ Hcc).
        -- now rewrite (bind_Raise _ _ _ _ _ Hcc).
      * left. now rewrite (bind_Raise _ _ _ _ _ (check_call_missing _ _ Hprog)).
  - rewrite (bind_Raise _ _ _ _ _ Hwr). exists (fs w1). cbn [snd].
    split; [now intros p _; rewrite Hf1|]. split; [assumption|].
    left. now rewrite Hw2.
Qed.


